(** * ctutlz.tls.handshake: a shallow embedding and its properties

    The module [ctutlz/tls/handshake.py] instruments one TLS handshake to
    capture the raw record of TLS extension 18 and the stapled OCSP response,
    serialises the leaf certificate and its issuer, and digs the embedded
    SCT list out of a certificate.

    Python values are modelled as follows: [bytes] objects are lists of
    [Byte.byte], [str] objects are [string]s, unsigned C integers handed to a
    callback are [N], Python integers are [Z], and a call that may raise
    returns a [result].  Mutable attributes of the shared [ctx] object are
    threaded explicitly through every function that reads or writes them. *)

From Stdlib Require Import ZArith NArith List String Ascii Bool Lia.
From Stdlib Require Import DecimalString DecimalN.
From Stdlib Require Import Strings.Byte.
Import ListNotations.

Set Implicit Arguments.

(** ** Python values, exceptions and results *)

Definition bytes := list byte.

(** The exception classes that can travel through this module. *)
Inductive exn : Type :=
| IndexError                 (* list index out of range *)
| TypeError
| StructError                (* struct.error *)
| BinasciiError              (* binascii.Error *)
| PyAsn1Error                (* pyasn1.error.PyAsn1Error *)
| SSLError                   (* OpenSSL.SSL.Error *)
| OSError (errno : Z)        (* socket.error and its subclasses *)
| SystemExit (code : Z).     (* raised by sys.exit *)

(** [except Exception] catches every class above except [SystemExit], which
    derives from [BaseException] only. *)
Definition is_Exception (e : exn) : bool :=
  match e with
  | SystemExit _ => false
  | _ => true
  end.

Inductive result (A : Type) : Type :=
| Ok (a : A)
| Raise (e : exn).

Arguments Ok {A} a.
Arguments Raise {A} e.

Definition bind {A B : Type} (m : result A) (k : A -> result B) : result B :=
  match m with
  | Ok a => k a
  | Raise e => Raise e
  end.

Notation "x <- m ;; k" := (bind m (fun x => k))
  (at level 61, m at next level, right associativity).
Notation "' p <- m ;; k" := (bind m (fun x => let p := x in k))
  (at level 61, p pattern, m at next level, right associativity).

(** [functools.reduce(function, iterable, initializer)]. *)
Definition reduce {A B : Type} (function : A -> B -> A) (iterable : list B)
  (initializer : A) : A :=
  fold_left function iterable initializer.

(** [seq[i]] for a list and a non-negative index. *)
Definition getitem {A : Type} (seq : list A) (i : nat) : result A :=
  match nth_error seq i with
  | Some x => Ok x
  | None => Raise IndexError
  end.

(** [seq[i]] where [seq] may be [None]: [None] is not subscriptable. *)
Definition getitem_or_None {A : Type} (seq : option (list A)) (i : nat)
  : result A :=
  match seq with
  | Some items => getitem items i
  | None => Raise TypeError
  end.

(** ** Bytes and integers *)

Definition byte_of_N (n : N) : byte :=
  match Byte.of_N n with
  | Some b => b
  | None => x00
  end.

(** [str(n)] for a non-negative integer. *)
Definition str_of_N (n : N) : string :=
  NilZero.string_of_uint (N.to_uint n).

(** ** struct.pack, for the format characters the module uses

    A format is the byte-order mark ['!'] (network order, standard sizes, no
    padding; the only one the module writes) followed by items; an item is an optional decimal repeat count
    and a format character.  ['H'] is an unsigned 16-bit integer, [count]
    of them; ['s'] is one bytes value cut or zero-padded to [count] bytes. *)

Inductive pyval : Type :=
| PyInt (z : Z)
| PyBytes (b : bytes).

Inductive fmt_item : Type :=
| FmtH (count : N)
| FmtS (count : N).

Definition digit_of_ascii (c : ascii) : option N :=
  let n := N_of_ascii c in
  if ((48 <=? n) && (n <=? 57))%N then Some (n - 48)%N else None.

Definition count_or_one (count : option N) : N :=
  match count with
  | Some n => n
  | None => 1%N
  end.

Fixpoint parse_items (s : string) (count : option N) : result (list fmt_item) :=
  match s with
  | EmptyString =>
      match count with
      | None => Ok []
      | Some _ => Raise StructError   (* repeat count given without format specifier *)
      end
  | String c s' =>
      match digit_of_ascii c with
      | Some d =>
          let sofar := match count with Some n => n | None => 0%N end in
          parse_items s' (Some (10 * sofar + d)%N)
      | None =>
          if Ascii.eqb c "H" then
            items <- parse_items s' None ;; Ok (FmtH (count_or_one count) :: items)
          else if Ascii.eqb c "s" then
            items <- parse_items s' None ;; Ok (FmtS (count_or_one count) :: items)
          else Raise StructError      (* bad char in struct format *)
      end
  end.

Definition parse_format (fmt : string) : result (list fmt_item) :=
  match fmt with
  | String "!" items => parse_items items None
  | _ => Raise StructError
  end.

Definition pack_uint16_be (n : N) : bytes :=
  [byte_of_N (n / 256); byte_of_N (n mod 256)].

(** ['H' format requires 0 <= number <= 65535]. *)
Definition pack_H (v : pyval) : result bytes :=
  match v with
  | PyInt z =>
      if ((0 <=? z) && (z <=? 65535))%Z then Ok (pack_uint16_be (Z.to_N z))
      else Raise StructError
  | PyBytes _ => Raise StructError
  end.

Definition pack_s (count : N) (v : pyval) : result bytes :=
  match v with
  | PyBytes b =>
      let n := N.to_nat count in
      Ok (firstn n b ++ repeat x00 (n - List.length b))
  | PyInt _ => Raise StructError
  end.

Fixpoint pack_Hs (count : nat) (values : list pyval) : result (bytes * list pyval) :=
  match count with
  | O => Ok ([], values)
  | S count' =>
      match values with
      | [] => Raise StructError
      | v :: values' =>
          b <- pack_H v ;;
          ' (bs, rest) <- pack_Hs count' values' ;;
          Ok (b ++ bs, rest)
      end
  end.

Fixpoint pack_items (items : list fmt_item) (values : list pyval) : result bytes :=
  match items with
  | [] =>
      match values with
      | [] => Ok []
      | _ :: _ => Raise StructError
      end
  | FmtH count :: items' =>
      ' (b, rest) <- pack_Hs (N.to_nat count) values ;;
      bs <- pack_items items' rest ;;
      Ok (b ++ bs)
  | FmtS count :: items' =>
      match values with
      | [] => Raise StructError
      | v :: rest =>
          b <- pack_s count v ;;
          bs <- pack_items items' rest ;;
          Ok (b ++ bs)
      end
  end.

Definition struct_pack (fmt : string) (values : list pyval) : result bytes :=
  items <- parse_format fmt ;;
  pack_items items values.

(** ** The OpenSSL context object

    [ctx] is one mutable Python object shared by [create_context], the two
    handshake callbacks (closures over [ctx]) and [do_handshake].  Its
    attributes are the fields below; a callback that assigns an attribute
    returns the updated context. *)

Inductive ssl_method : Type := SSLv23_METHOD.
Inductive ssl_option : Type := OP_NO_SSLv2 | OP_NO_SSLv3.
Inductive ssl_verify_mode : Type := VERIFY_NONE | VERIFY_PEER.
Inductive filetype : Type := FILETYPE_PEM | FILETYPE_ASN1.

(** The signature OpenSSL gives a verification callback:
    [(conn, cert, errnum, depth, ok)].  Python does not type the first two. *)
Definition verify_callback_type : Type :=
  forall Conn Cert : Type, Conn -> Cert -> Z -> Z -> Z -> Z.

Record SSLContext : Type := mkSSLContext {
  ctx_method : ssl_method;
  ctx_options : list ssl_option;
  ctx_verify : option (ssl_verify_mode * verify_callback_type);
  ctx_verify_locations : option string;
  (* lib.serverinfo_cli_parse_cb registered for extension 18 *)
  ctx_custom_ext_18 : bool;
  (* ocsp_client_callback installed by set_ocsp_client_callback *)
  ctx_ocsp_client_callback : bool;
  tls_extension_18_tdf : option bytes;
  ocsp_resps : list bytes
}.

Definition new_Context (m : ssl_method) : SSLContext :=
  mkSSLContext m [] None None false false None [].

Definition set_options (ctx : SSLContext) (o : ssl_option) : SSLContext :=
  mkSSLContext (ctx_method ctx) (ctx_options ctx ++ [o]) (ctx_verify ctx)
    (ctx_verify_locations ctx) (ctx_custom_ext_18 ctx)
    (ctx_ocsp_client_callback ctx) (tls_extension_18_tdf ctx) (ocsp_resps ctx).

Definition set_verify (ctx : SSLContext) (mode : ssl_verify_mode)
  (callback : verify_callback_type) : SSLContext :=
  mkSSLContext (ctx_method ctx) (ctx_options ctx) (Some (mode, callback))
    (ctx_verify_locations ctx) (ctx_custom_ext_18 ctx)
    (ctx_ocsp_client_callback ctx) (tls_extension_18_tdf ctx) (ocsp_resps ctx).

Definition load_verify_locations (ctx : SSLContext) (cafile : string) : SSLContext :=
  mkSSLContext (ctx_method ctx) (ctx_options ctx) (ctx_verify ctx)
    (Some cafile) (ctx_custom_ext_18 ctx)
    (ctx_ocsp_client_callback ctx) (tls_extension_18_tdf ctx) (ocsp_resps ctx).

Definition add_client_custom_ext_18 (ctx : SSLContext) : SSLContext :=
  mkSSLContext (ctx_method ctx) (ctx_options ctx) (ctx_verify ctx)
    (ctx_verify_locations ctx) true
    (ctx_ocsp_client_callback ctx) (tls_extension_18_tdf ctx) (ocsp_resps ctx).

Definition set_ocsp_client_callback (ctx : SSLContext) : SSLContext :=
  mkSSLContext (ctx_method ctx) (ctx_options ctx) (ctx_verify ctx)
    (ctx_verify_locations ctx) (ctx_custom_ext_18 ctx)
    true (tls_extension_18_tdf ctx) (ocsp_resps ctx).

Definition set_tls_extension_18_tdf (ctx : SSLContext) (v : option bytes) : SSLContext :=
  mkSSLContext (ctx_method ctx) (ctx_options ctx) (ctx_verify ctx)
    (ctx_verify_locations ctx) (ctx_custom_ext_18 ctx)
    (ctx_ocsp_client_callback ctx) v (ocsp_resps ctx).

Definition set_ocsp_resps (ctx : SSLContext) (v : list bytes) : SSLContext :=
  mkSSLContext (ctx_method ctx) (ctx_options ctx) (ctx_verify ctx)
    (ctx_verify_locations ctx) (ctx_custom_ext_18 ctx)
    (ctx_ocsp_client_callback ctx) (tls_extension_18_tdf ctx) v.

(** ** The callbacks defined inside [create_context] *)

(** [verify_callback(conn, cert, errnum, depth, ok)]: the dummy callback. *)
Definition verify_callback : verify_callback_type :=
  fun Conn Cert (conn : Conn) (cert : Cert) (errnum depth ok : Z) => 1%Z.

(** [ffi.buffer(_in, inlen)] then [bytes(...)]: the [inlen] bytes found at the
    pointer [_in], given here as the bytes readable from that address. *)
Definition ffi_buffer (_in : bytes) (inlen : N) : bytes :=
  firstn (N.to_nat inlen) _in.

Definition reduce_func (accum_value : string * list pyval)
  (current : string * pyval) : string * list pyval :=
  let fmt := (fst accum_value ++ fst current)%string in
  let values := snd accum_value ++ [snd current] in
  (fmt, values).

(** [serverinfo_cli_parse_cb(ssl, ext_type, _in, inlen, al, arg)].  The
    arguments [ssl], [al] and [arg] are not read.  The result is the updated
    context and the returned status, or the exception that leaves the function. *)
Definition serverinfo_cli_parse_cb (ctx : SSLContext) (ext_type : N)
  (_in : bytes) (inlen : N) : result (SSLContext * Z) :=
  if (ext_type =? 18)%N then
    let initializer := ("!"%string, @nil pyval) in
    let '(fmt, values) :=
      reduce reduce_func
        [ ("H"%string, PyInt (Z.of_N ext_type));
          ("H"%string, PyInt (Z.of_N inlen));
          ((str_of_N inlen ++ "s")%string, PyBytes (ffi_buffer _in inlen)) ]
        initializer in
    packed <- struct_pack fmt values ;;
    Ok (set_tls_extension_18_tdf ctx (Some packed), 1%Z)
  else Ok (ctx, 1%Z).

(** [ocsp_client_callback(connection, ocsp_data, data)]. *)
Definition ocsp_client_callback (ctx : SSLContext) (ocsp_data : bytes)
  : SSLContext * bool :=
  (set_ocsp_resps ctx (ocsp_resps ctx ++ [ocsp_data]), true).

(** Reading a stored extension record back: two big-endian 16-bit fields and
    the payload they announce. *)
Definition unpack_uint16_be (hi lo : byte) : N :=
  (Byte.to_N hi * 256 + Byte.to_N lo)%N.

Definition decode_extension_record (record : bytes) : option (N * N * bytes) :=
  match record with
  | t1 :: t2 :: l1 :: l2 :: payload =>
      let len := unpack_uint16_be l1 l2 in
      if (N.of_nat (List.length payload) =? len)%N
      then Some (unpack_uint16_be t1 t2, len, payload)
      else None
  | _ => None
  end.

(** ** Effects of the handshake functions

    Every call on the socket, every callback the TLS library makes and every
    write to a standard stream is recorded, in program order, in a trace. *)

Inductive op : Type :=
| Stderr (text : string)                      (* sys.stderr.write(text) *)
| ERR_print_errors_fp                         (* lib.ERR_print_errors_fp(sys.stderr) *)
| Stdout_diagnostics (exc : exn)              (* the print in the except clause *)
| NewSocket                                   (* socket.socket(...) wrapped in a Connection *)
| RequestOcsp                                 (* sock.request_ocsp() *)
| Connect (domain : string) (port : Z)        (* sock.connect((domain, port)) *)
| DoHandshake                                 (* sock.do_handshake() *)
| CallParseCb (ext_type : N) (_in : bytes) (inlen : N)   (* serverinfo_cli_parse_cb called *)
| CallOcspCb (ocsp_data : bytes)              (* ocsp_client_callback called *)
| GetPeerCertChain                            (* sock.get_peer_cert_chain() *)
| GetPeerCertificate                          (* sock.get_peer_certificate() *)
| Close.                                      (* sock.close() *)

Definition io (A : Type) : Type := (list op * result A)%type.

(** The line feed that ends the message of a failed registration. *)
Definition newline : string := String "010"%char EmptyString.

(** What a failed registration of the extension callback writes before the
    process exits. *)
Definition registration_failure_output : list op :=
  [Stderr ("Unable to add custom extension 18" ++ newline)%string;
   ERR_print_errors_fp].

Definition ret {A : Type} (a : A) : io A := ([], Ok a).
Definition raise {A : Type} (e : exn) : io A := ([], Raise e).
Definition emit (o : op) : io unit := ([o], Ok tt).
Definition lift {A : Type} (r : result A) : io A := ([], r).

Definition io_bind {A B : Type} (m : io A) (k : A -> io B) : io B :=
  match m with
  | (tr, Ok a) => let '(tr', r) := k a in (tr ++ tr', r)
  | (tr, Raise e) => (tr, Raise e)
  end.

Notation "x <-- m ;; k" := (io_bind m (fun x => k))
  (at level 61, m at next level, right associativity).
Notation "' p <-- m ;; k" := (io_bind m (fun x => let p := x in k))
  (at level 61, p pattern, m at next level, right associativity).

(** [try: body  except Exception as exc: handler(exc); raise exc]. *)
Definition except_Exception_reraise {A : Type} (body : io A)
  (handler : exn -> list op) : io A :=
  match body with
  | (tr, Raise exc) =>
      if is_Exception exc then (tr ++ handler exc, Raise exc)
      else (tr, Raise exc)
  | (tr, Ok a) => (tr, Ok a)
  end.

(** [try: body  finally: finalizer], for a finalizer that does not raise. *)
Definition finally {A : Type} (body : io A) (finalizer : list op) : io A :=
  (fst body ++ finalizer, snd body).

(** A call into the socket or TLS library: it is recorded, and it returns or
    raises as the environment says. *)
Definition library_call {A : Type} (o : op) (outcome : result A) : io A :=
  ([o], outcome).

(** What the peer sends during the handshake that can reach a callback. *)
Inductive tls_event : Type :=
| ServerExtension (ext_type : N) (data : bytes)
| StapledOcspResponse (ocsp_data : bytes).

Definition count_Close (tr : list op) : nat :=
  List.length (filter (fun o => match o with Close => true | _ => false end) tr).

Definition count_NewSocket (tr : list op) : nat :=
  List.length (filter (fun o => match o with NewSocket => true | _ => false end) tr).

(** The responses the OCSP callback was called with, in call order. *)
Fixpoint ocsp_callback_calls (tr : list op) : list bytes :=
  match tr with
  | [] => []
  | CallOcspCb ocsp_data :: tr' => ocsp_data :: ocsp_callback_calls tr'
  | _ :: tr' => ocsp_callback_calls tr'
  end.

Section Handshake.

(** [OpenSSL.crypto.X509] objects and their serialisation are the TLS
    library's.  [get_peer_cert_chain] returns a list, or [None] when the peer
    has no chain. *)
Variable X509 : Type.
Variable dump_certificate : filetype -> X509 -> bytes.

(** Everything outside the module that one call depends on. *)
Record Env : Type := mkEnv {
  certifi_where : string;                    (* certifi.where() *)
  SSL_CTX_add_client_custom_ext : bool;      (* status of the registration *)
  connect_outcome : result unit;             (* sock.connect *)
  handshake_events : list tls_event;         (* delivered during sock.do_handshake *)
  handshake_outcome : result unit;           (* the handshake once they are delivered *)
  peer_cert_chain : result (option (list X509));  (* sock.get_peer_cert_chain() *)
  peer_certificate : result X509             (* sock.get_peer_certificate() *)
}.

(** [create_context(scts_tls, scts_ocsp)].  When the registration of the
    extension callback fails, the message and the library's error queue go
    to standard error and [sys.exit(1)] raises [SystemExit]. *)
Definition create_context (env : Env) (scts_tls scts_ocsp : bool)
  : io SSLContext :=
  let ctx := new_Context SSLv23_METHOD in
  let ctx := set_options ctx OP_NO_SSLv2 in
  let ctx := set_options ctx OP_NO_SSLv3 in
  let ctx := set_verify ctx VERIFY_PEER verify_callback in
  let ca_filename := certifi_where env in
  let ctx := load_verify_locations ctx ca_filename in
  let ctx := set_tls_extension_18_tdf ctx None in
  ctx <-- (if scts_tls then
             if negb (SSL_CTX_add_client_custom_ext env) then
               _ <-- emit (Stderr ("Unable to add custom extension 18"
                                   ++ newline)%string) ;;
               _ <-- emit ERR_print_errors_fp ;;
               raise (SystemExit 1)
             else ret (add_client_custom_ext_18 ctx)
           else ret ctx) ;;
  let ctx := set_ocsp_resps ctx [] in
  let ctx := if scts_ocsp then set_ocsp_client_callback ctx else ctx in
  ret ctx.

(** [create_socket(scts_tls, scts_ocsp)]: the connection object carries its
    context. *)
Definition create_socket (env : Env) (scts_tls scts_ocsp : bool)
  : io SSLContext :=
  ctx <-- create_context env scts_tls scts_ocsp ;;
  _ <-- emit NewSocket ;;
  ret ctx.

(** The TLS library delivering one event: a callback runs only if it was
    registered (the parse callback for extension type 18 only).  A parse
    callback that raises or returns zero, or an OCSP callback that returns
    false, fails the handshake. *)
Definition deliver (ctx : SSLContext) (ev : tls_event) : io SSLContext :=
  match ev with
  | ServerExtension ext_type data =>
      if ctx_custom_ext_18 ctx && (ext_type =? 18)%N then
        let inlen := N.of_nat (List.length data) in
        _ <-- emit (CallParseCb ext_type data inlen) ;;
        match serverinfo_cli_parse_cb ctx ext_type data inlen with
        | Ok (ctx', status) =>
            if (status =? 0)%Z then raise SSLError else ret ctx'
        | Raise _ => raise SSLError
        end
      else ret ctx
  | StapledOcspResponse ocsp_data =>
      if ctx_ocsp_client_callback ctx then
        _ <-- emit (CallOcspCb ocsp_data) ;;
        let '(ctx', accepted) := ocsp_client_callback ctx ocsp_data in
        if accepted then ret ctx' else raise SSLError
      else ret ctx
  end.

Fixpoint deliver_all (ctx : SSLContext) (evs : list tls_event) : io SSLContext :=
  match evs with
  | [] => ret ctx
  | ev :: evs' =>
      ctx' <-- deliver ctx ev ;;
      deliver_all ctx' evs'
  end.

(** [sock.do_handshake()]. *)
Definition sock_do_handshake (env : Env) (ctx : SSLContext) : io SSLContext :=
  _ <-- emit DoHandshake ;;
  ctx' <-- deliver_all ctx (handshake_events env) ;;
  _ <-- lift (handshake_outcome env) ;;
  ret ctx'.

(** Python truth value of an optional bytes attribute. *)
Definition truthy_bytes (v : option bytes) : bool :=
  match v with
  | Some (_ :: _) => true
  | _ => false
  end.

(** [do_handshake(domain, scts_tls, scts_ocsp)]. *)
Definition do_handshake (env : Env) (domain : string) (scts_tls scts_ocsp : bool)
  : io (X509 * option (list X509) * option bytes * option bytes) :=
  sock <-- create_socket env scts_tls scts_ocsp ;;
  _ <-- emit RequestOcsp ;;
  let ocsp_response := @None bytes in
  let tls_extension_18_tdf_ := @None bytes in
  finally
    (except_Exception_reraise
       (_ <-- library_call (Connect domain 443) (connect_outcome env) ;;
        ctx <-- sock_do_handshake env sock ;;
        chain <-- library_call GetPeerCertChain (peer_cert_chain env) ;;
        certificate <-- library_call GetPeerCertificate (peer_certificate env) ;;
        let tls_extension_18_tdf_ :=
          if scts_tls then
            if truthy_bytes (tls_extension_18_tdf ctx)
            then tls_extension_18_tdf ctx
            else tls_extension_18_tdf_
          else tls_extension_18_tdf_ in
        ocsp_response <--
          (if scts_ocsp then
             match ocsp_resps ctx with
             | _ :: _ => r <-- lift (getitem (ocsp_resps ctx) 0) ;; ret (Some r)
             | [] => ret ocsp_response
             end
           else ret ocsp_response) ;;
        ret (certificate, chain, ocsp_response, tls_extension_18_tdf_))
       (fun exc => [Stdout_diagnostics exc]))
    [Close].

(** [cert_of_domain(domain, scts_tls=True, scts_ocsp=True)]. *)
Definition cert_of_domain (env : Env) (domain : string) (scts_tls scts_ocsp : bool)
  : io (bytes * bytes * option bytes * option bytes) :=
  ' (cert_x509, chain_x509s, ocsp_resp_der, tls_ext_18_tdf) <--
    do_handshake env domain scts_tls scts_ocsp ;;
  let cert_der := dump_certificate FILETYPE_ASN1 cert_x509 in
  issuer_cert_x509 <-- lift (getitem_or_None chain_x509s 1) ;;
  let issuer_cert_der := dump_certificate FILETYPE_ASN1 issuer_cert_x509 in
  ret (cert_der, issuer_cert_der, ocsp_resp_der, tls_ext_18_tdf).

End Handshake.

(** ** Text and hexadecimal helpers used by [scts_from_cert] *)

(** The characters of a bytes value decoded as ISO 8859-1. *)
Fixpoint text_of_bytes (value : bytes) : string :=
  match value with
  | [] => EmptyString
  | b :: value' => String (ascii_of_byte b) (text_of_bytes value')
  end.

Definition hexdigit (n : N) : ascii :=
  match n with
  | 0 => "0" | 1 => "1" | 2 => "2" | 3 => "3" | 4 => "4" | 5 => "5" | 6 => "6"
  | 7 => "7" | 8 => "8" | 9 => "9" | 10 => "a" | 11 => "b" | 12 => "c"
  | 13 => "d" | 14 => "e" | _ => "f"
  end%N%char.

(** ['%.2x' % x] joined over the numbers of a bytes value. *)
Fixpoint hex_of_bytes (value : bytes) : string :=
  match value with
  | [] => EmptyString
  | b :: value' =>
      String (hexdigit (Byte.to_N b / 16))
        (String (hexdigit (Byte.to_N b mod 16)) (hex_of_bytes value'))
  end.

Definition needs_hex (b : byte) : bool :=
  ((Byte.to_N b <? 32) || (126 <? Byte.to_N b))%N.

(** [OctetString.prettyPrint()] of pyasn1: the hexadecimal form, prefixed
    with [0x], as soon as one number is outside 32..126, and the text
    otherwise. *)
Definition prettyPrint (value : bytes) : string :=
  if existsb needs_hex value
  then ("0x" ++ hex_of_bytes value)%string
  else text_of_bytes value.

(** [s.split(sep)] for a non-empty separator: [cur] holds, reversed, the
    characters of the piece being read, and [skip] the characters of a
    separator just recognised that are still to be passed over. *)
Fixpoint split_from (sep : string) (skip : nat) (cur : list ascii) (s : string)
  : list string :=
  match s with
  | EmptyString => [string_of_list_ascii (rev cur)]
  | String c s' =>
      match skip with
      | S skip' => split_from sep skip' cur s'
      | O =>
          if String.prefix sep s
          then string_of_list_ascii (rev cur)
               :: split_from sep (String.length sep - 1) [] s'
          else split_from sep 0 (c :: cur) s'
      end
  end.

Definition split (s sep : string) : list string := split_from sep 0 [] s.

(** [seq[-1]]. *)
Definition getitem_last {A : Type} (seq : list A) : result A :=
  match rev seq with
  | x :: _ => Ok x
  | [] => Raise IndexError
  end.

Definition unhex_digit (c : ascii) : option N :=
  let n := N_of_ascii c in
  if ((48 <=? n) && (n <=? 57))%N then Some (n - 48)%N
  else if ((97 <=? n) && (n <=? 102))%N then Some (n - 87)%N
  else if ((65 <=? n) && (n <=? 70))%N then Some (n - 55)%N
  else None.

(** [binascii.unhexlify(hexstr)]: odd length and non-hexadecimal digits raise. *)
Fixpoint unhexlify (hexstr : string) : result bytes :=
  match hexstr with
  | EmptyString => Ok []
  | String _ EmptyString => Raise BinasciiError
  | String c1 (String c2 rest) =>
      match unhex_digit c1, unhex_digit c2 with
      | Some hi, Some lo =>
          value <- unhexlify rest ;;
          Ok (byte_of_N (16 * hi + lo) :: value)
      | _, _ => Raise BinasciiError
      end
  end.

(** ** DER octet strings *)

Fixpoint be_decode (acc : N) (octets : bytes) : N :=
  match octets with
  | [] => acc
  | b :: octets' => be_decode (acc * 256 + Byte.to_N b) octets'
  end.

(** The length octets of a TLV: short form below 128, long form otherwise;
    the indefinite form is refused. *)
Definition der_decode_length (substrate : bytes) : result (nat * bytes) :=
  match substrate with
  | [] => Raise PyAsn1Error
  | b :: rest =>
      let first := Byte.to_N b in
      if (first <? 128)%N then Ok (N.to_nat first, rest)
      else if (first =? 128)%N then Raise PyAsn1Error
      else
        let size := N.to_nat (first - 128) in
        if (List.length rest <? size)%nat then Raise PyAsn1Error
        else Ok (N.to_nat (be_decode 0 (firstn size rest)), skipn size rest)
  end.

(** [der_decoder(substrate, OctetString())]: the value and the bytes left.
    The primitive form, whose first octet is the tag [04], is decoded here.
    What pyasn1 makes of a substrate that starts with another octet (it
    accepts the constructed form [24], for one) is [other_forms], the
    library's. *)
Definition der_decoder_OctetString
  (other_forms : bytes -> result (bytes * bytes)) (substrate : bytes)
  : result (bytes * bytes) :=
  match substrate with
  | [] => Raise PyAsn1Error
  | x04 :: after_tag =>
      ' (len, rest) <- der_decode_length after_tag ;;
      if (List.length rest <? len)%nat then Raise PyAsn1Error
      else Ok (firstn len rest, skipn len rest)
  | _ :: _ => other_forms substrate
  end.

(** The DER encoding of an octet string, as X.690 defines it. *)
Fixpoint be_bytes_aux (fuel : nat) (n : N) (acc : bytes) : bytes :=
  match fuel with
  | O => acc
  | S fuel' =>
      if (n =? 0)%N then acc
      else be_bytes_aux fuel' (n / 256) (byte_of_N (n mod 256) :: acc)
  end.

Definition be_bytes (n : N) : bytes := be_bytes_aux (N.to_nat (N.size n)) n [].

Definition der_encode_length (n : N) : bytes :=
  if (n <? 128)%N then [byte_of_N n]
  else
    let octets := be_bytes n in
    byte_of_N (128 + N.of_nat (List.length octets)) :: octets.

Definition der_encode_OctetString (payload : bytes) : bytes :=
  x04 :: der_encode_length (N.of_nat (List.length payload)) ++ payload.

(** ** Certificates and [scts_from_cert] *)

(** An object identifier and [str()] of it: its arcs in dotted decimal. *)
Definition oid := list N.

Definition str_of_oid (o : oid) : string :=
  String.concat "." (map str_of_N o).

(** The parts of a decoded [rfc5280.Certificate] that the module reads. *)
Record Extension : Type := mkExtension {
  extnID : oid;
  critical : bool;
  extnValue : bytes
}.

Record TBSCertificate : Type := mkTBSCertificate {
  extensions : list Extension
}.

Record Certificate : Type := mkCertificate {
  tbsCertificate : TBSCertificate
}.

Record SctListEntry : Type := mkSctListEntry {
  sct_der : bytes
}.

(** Lines 174-178: from the extension's value field to the bytes given to
    the SCT list codec. *)
Definition sctlist_der_of_extnValue
  (other_forms : bytes -> result (bytes * bytes)) (os_inner_der : bytes)
  : result bytes :=
  ' (os_inner, _) <- der_decoder_OctetString other_forms os_inner_der ;;
  sctlist_hex <- getitem_last (split (prettyPrint os_inner) "0x") ;;
  unhexlify sctlist_hex.

Section EmbeddedScts.

(** The certificate grammar decoder of pyasn1, what its octet string decoder
    makes of forms other than the primitive one, and this package's SCT list
    codec and SCT record type, which live in other modules. *)
Variable der_decoder_Certificate : bytes -> result (Certificate * bytes).
Variable other_forms : bytes -> result (bytes * bytes).
Variable SctRecord : Type.
Variable SignedCertificateTimestampList : bytes -> result (list SctListEntry).
Variable Sct : bytes -> SctRecord.

(** [scts_from_cert(cert_der)]. *)
Definition scts_from_cert (cert_der : bytes) : result (list SctRecord) :=
  ' (cert, _) <- der_decoder_Certificate cert_der ;;
  let scts := @nil SctRecord in
  let exts :=
    filter
      (fun extension =>
         String.eqb (str_of_oid (extnID extension)) "1.3.6.1.4.1.11129.2.4.2")
      (extensions (tbsCertificate cert)) in
  if negb (List.length exts =? 0)%nat then
    extension_sctlist <- getitem exts 0 ;;
    let os_inner_der := extnValue extension_sctlist in
    sctlist_der <- sctlist_der_of_extnValue other_forms os_inner_der ;;
    sctlist <- SignedCertificateTimestampList sctlist_der ;;
    Ok (map (fun entry => Sct (sct_der entry)) sctlist)
  else Ok scts.

End EmbeddedScts.

(** The object identifier of the embedded SCT list extension. *)
Definition ct_sct_list_oid : oid := [1; 3; 6; 1; 4; 1; 11129; 2; 4; 2]%N.

(** Whether [create_context] gets past the registration of the extension
    callback: it is attempted only when [scts_tls] is set. *)
Definition registration_passes {X509 : Type} (env : Env X509) (scts_tls : bool)
  : bool :=
  negb scts_tls || SSL_CTX_add_client_custom_ext env.

(** The trace operations that open or release the socket. *)
Definition is_lifecycle (o : op) : bool :=
  match o with
  | NewSocket | Close => true
  | _ => false
  end.

(** ** The encoding of a certificate

    [dump_certificate] of the TLS library, for certificates known by the
    content octets of their outer SEQUENCE: the ASN.1 (DER) form is the tag
    [30], the length of the content and the content; the PEM form is left to
    the library. *)
Definition asn1_dump {X509 : Type} (content pem : X509 -> bytes)
  (t : filetype) (cert : X509) : bytes :=
  match t with
  | FILETYPE_ASN1 =>
      x30 :: der_encode_length (N.of_nat (List.length (content cert)))
          ++ content cert
  | FILETYPE_PEM => pem cert
  end.

(** ** Concrete runs, for examples

    A certificate is stood for by the content of its encoding; the
    registration of the extension callback, [connect] and the handshake
    succeed, and the peer sends [events] and presents [chain] and
    [certificate]. *)
Definition example_dump : filetype -> bytes -> bytes :=
  asn1_dump (fun body => body) (fun body => body).

Definition example_env (events : list tls_event) (chain : list bytes)
  (certificate : bytes) : Env bytes :=
  mkEnv "cacert.pem" true (Ok tt) events (Ok tt) (Ok (Some chain))
    (Ok certificate).

(** A run of [do_handshake] that succeeds with a chain too short to hold an
    issuer. *)
Definition missing_issuer {X509 : Type} (env : Env X509) (domain : string)
  (scts_tls scts_ocsp : bool) : Prop :=
  exists tr certificate chain ocsp_response tdf,
    do_handshake env domain scts_tls scts_ocsp
    = (tr, Ok (certificate, Some chain, ocsp_response, tdf))
    /\ (List.length chain < 2)%nat.

(** No call into the socket or TLS library raises [exc]. *)
Definition library_never_raises {X509 : Type} (exc : exn) (env : Env X509)
  : Prop :=
  connect_outcome env <> Raise exc
  /\ handshake_outcome env <> Raise exc
  /\ peer_cert_chain env <> Raise exc
  /\ peer_certificate env <> Raise exc.

(** [c] does not occur in [s]. *)
Fixpoint lacks (c : ascii) (s : string) : bool :=
  match s with
  | EmptyString => true
  | String c' s' => negb (Ascii.eqb c c') && lacks c s'
  end.

(** What follows an arc in the dotted form of an object identifier: nothing,
    or a dot and more. *)
Definition dotted_rest (r : string) : Prop :=
  r = EmptyString \/ exists t, r = String "." t.

(** The test [scts_from_cert] selects extensions with. *)
Definition is_sct_list_extension (extension : Extension) : bool :=
  String.eqb (str_of_oid (extnID extension)) "1.3.6.1.4.1.11129.2.4.2".

(** A certificate with the given extensions, a list codec that hands back
    the bytes it was given as its only entry, and a record type that is the
    bytes themselves: with them the result of [scts_from_cert] shows what
    reached the codec. *)
Definition example_certificate (exts : list Extension) : Certificate :=
  mkCertificate (mkTBSCertificate exts).

Definition example_decoder (exts : list Extension) (cert_der : bytes)
  : result (Certificate * bytes) :=
  Ok (example_certificate exts, []).

Definition probe_codec (sctlist_der : bytes) : result (list SctListEntry) :=
  Ok [mkSctListEntry sctlist_der].

Definition probe_Sct (der : bytes) : bytes := der.

(** For examples whose octet strings are all in the primitive form: any
    other form is refused. *)
Definition no_other_forms (substrate : bytes) : result (bytes * bytes) :=
  Raise PyAsn1Error.

(** A trace that neither opens nor releases a socket. *)
Definition quiet (tr : list op) : Prop :=
  forallb (fun o => negb (is_lifecycle o)) tr = true.

(** ** Further readings of a trace and of the peer's events *)

(** The record the extension callback stores for [inlen] bytes [data]. *)
Definition extension_record (inlen : N) (data : bytes) : bytes :=
  x00 :: x12 :: byte_of_N (inlen / 256) :: byte_of_N (inlen mod 256) :: data.

(** The record of the last call of the extension callback in a trace, or
    [sofar] when there is none. *)
Fixpoint last_extension_record (tr : list op) (sofar : option bytes)
  : option bytes :=
  match tr with
  | [] => sofar
  | CallParseCb _ data inlen :: tr' =>
      last_extension_record tr' (Some (extension_record inlen data))
  | _ :: tr' => last_extension_record tr' sofar
  end.

(** No diagnostics were printed. *)
Definition is_diagnostics (o : op) : bool :=
  match o with
  | Stdout_diagnostics _ => true
  | _ => false
  end.

Definition no_diagnostics (tr : list op) : Prop :=
  forallb (fun o => negb (is_diagnostics o)) tr = true.

(** An event a TLS peer can put on the wire: the length of an extension is a
    16-bit field. *)
Definition wire_legal (ev : tls_event) : bool :=
  match ev with
  | ServerExtension _ data => (N.of_nat (List.length data) <=? 65535)%N
  | StapledOcspResponse _ => true
  end.

(** The context after the OCSP callback was called with each of [responses]
    in turn. *)
Definition after_ocsp_callbacks (ctx : SSLContext) (responses : list bytes)
  : SSLContext :=
  fold_left (fun c ocsp_data => fst (ocsp_client_callback c ocsp_data))
    responses ctx.

(** The bytes of an ASCII text. *)
Fixpoint bytes_of_text (s : string) : bytes :=
  match s with
  | EmptyString => []
  | String c s' => byte_of_ascii c :: bytes_of_text s'
  end.

(** * Properties *)

Unset Implicit Arguments.

(** ** Bytes and big-endian fields *)

Lemma to_N_byte_of_N (n : N) : (n < 256)%N -> Byte.to_N (byte_of_N n) = n.
Proof.
  intros H. unfold byte_of_N.
  destruct (Byte.of_N n) as [b|] eqn:E.
  - now apply Byte.to_of_N.
  - apply Byte.of_N_None_iff in E. lia.
Qed.

Lemma unpack_pack_uint16_be (n : N) :
  (n <= 65535)%N ->
  unpack_uint16_be (byte_of_N (n / 256)) (byte_of_N (n mod 256)) = n.
Proof.
  intros H. unfold unpack_uint16_be.
  assert (n / 256 < 256)%N by (apply N.Div0.div_lt_upper_bound; lia).
  assert (n mod 256 < 256)%N by (apply N.mod_lt; lia).
  rewrite !to_N_byte_of_N by assumption.
  rewrite (N.div_mod n 256) at 3 by lia. lia.
Qed.

(** ** The format string built by the extension callback *)

Ltac eval_digit :=
  match goal with
  | |- context [digit_of_ascii ?c] =>
      let v := eval vm_compute in (digit_of_ascii c) in
      change (digit_of_ascii c) with v
  end; cbv iota beta zeta.

Lemma parse_items_digits_pos (d : Decimal.uint) :
  forall (rest : string) (p : positive),
    parse_items (NilEmpty.string_of_uint d ++ rest) (Some (N.pos p))
    = parse_items rest (Some (N.pos (Pos.of_uint_acc d p))).
Proof.
  induction d; intros rest p;
    cbn [NilEmpty.string_of_uint append Pos.of_uint_acc];
    [ reflexivity | .. ];
    cbn [parse_items]; eval_digit;
    rewrite <- IHd; f_equal; f_equal; lia.
Qed.

Lemma parse_items_digits_zero (d : Decimal.uint) :
  forall rest : string,
    parse_items (NilEmpty.string_of_uint d ++ rest) (Some 0%N)
    = parse_items rest (Some (N.of_uint d)).
Proof.
  induction d; intros rest;
    cbn [NilEmpty.string_of_uint append N.of_uint Pos.of_uint];
    [ reflexivity | .. ]; cbn [parse_items]; eval_digit.
  1: exact (IHd rest).
  all: exact (parse_items_digits_pos d rest _).
Qed.

(** A repeat count printed by [str] is read back as the same number. *)
Lemma parse_items_str_of_N (n : N) (rest : string) :
  parse_items (str_of_N n ++ rest) None = parse_items rest (Some n).
Proof.
  unfold str_of_N.
  rewrite <- (DecimalN.Unsigned.of_to n) at 2.
  assert (Hnn : N.to_uint n <> Decimal.Nil).
  { destruct n; [discriminate | apply DecimalPos.Unsigned.to_uint_nonnil]. }
  destruct (N.to_uint n) eqn:E; [ congruence | .. ];
    rewrite <- (parse_items_digits_zero _ rest);
    cbn [NilZero.string_of_uint NilEmpty.string_of_uint append parse_items];
    eval_digit; reflexivity.
Qed.

Lemma parse_format_extension_record (inlen : N) :
  parse_format ("!HH" ++ str_of_N inlen ++ "s")
  = Ok [FmtH 1; FmtH 1; FmtS inlen].
Proof.
  cbn [append parse_format parse_items]. repeat eval_digit.
  cbn [Ascii.eqb Bool.eqb bind count_or_one].
  rewrite parse_items_str_of_N.
  cbn [parse_items]. eval_digit. reflexivity.
Qed.

Lemma pack_H_in_range (n : N) :
  (n <= 65535)%N -> pack_H (PyInt (Z.of_N n)) = Ok (pack_uint16_be n).
Proof.
  intros H. unfold pack_H.
  replace ((0 <=? Z.of_N n) && (Z.of_N n <=? 65535))%Z with true
    by (symmetry; apply andb_true_intro; split; apply Z.leb_le; lia).
  now rewrite N2Z.id.
Qed.

Lemma pack_H_out_of_range (n : N) :
  (65535 < n)%N -> pack_H (PyInt (Z.of_N n)) = Raise StructError.
Proof.
  intros H. unfold pack_H.
  replace (Z.of_N n <=? 65535)%Z with false by (symmetry; apply Z.leb_gt; lia).
  now rewrite andb_false_r.
Qed.

Lemma struct_pack_extension_record (ext_type inlen : N) (data : bytes) :
  (ext_type <= 65535)%N -> (inlen <= 65535)%N ->
  struct_pack ("!HH" ++ str_of_N inlen ++ "s")
    [PyInt (Z.of_N ext_type); PyInt (Z.of_N inlen); PyBytes data]
  = Ok (pack_uint16_be ext_type ++ pack_uint16_be inlen
        ++ firstn (N.to_nat inlen) data
        ++ repeat x00 (N.to_nat inlen - List.length data)).
Proof.
  intros Ht Hl. unfold struct_pack.
  rewrite parse_format_extension_record.
  cbn [bind pack_items]. change (N.to_nat 1) with 1%nat. cbn [pack_Hs].
  rewrite (pack_H_in_range _ Ht). cbn [bind pack_items].
  change (N.to_nat 1) with 1%nat. cbn [pack_Hs].
  rewrite (pack_H_in_range _ Hl). cbn [bind pack_items pack_s].
  now rewrite !List.app_nil_r.
Qed.

Lemma struct_pack_length_overflow (ext_type inlen : N) (data : bytes) :
  (ext_type <= 65535)%N -> (65535 < inlen)%N ->
  struct_pack ("!HH" ++ str_of_N inlen ++ "s")
    [PyInt (Z.of_N ext_type); PyInt (Z.of_N inlen); PyBytes data]
  = Raise StructError.
Proof.
  intros Ht Hl. unfold struct_pack.
  rewrite parse_format_extension_record.
  cbn [bind pack_items]. change (N.to_nat 1) with 1%nat. cbn [pack_Hs].
  rewrite (pack_H_in_range _ Ht). cbn [bind pack_items].
  change (N.to_nat 1) with 1%nat. cbn [pack_Hs].
  now rewrite (pack_H_out_of_range _ Hl).
Qed.

(** ** The extension callback *)

Lemma serverinfo_cli_parse_cb_18 (ctx : SSLContext) (_in : bytes) (inlen : N) :
  serverinfo_cli_parse_cb ctx 18 _in inlen
  = (packed <- struct_pack ("!HH" ++ str_of_N inlen ++ "s")
                 [PyInt 18; PyInt (Z.of_N inlen); PyBytes (ffi_buffer _in inlen)] ;;
     Ok (set_tls_extension_18_tdf ctx (Some packed), 1%Z)).
Proof. reflexivity. Qed.

Lemma serverinfo_cli_parse_cb_other (ctx : SSLContext) (ext_type : N)
  (_in : bytes) (inlen : N) :
  ext_type <> 18%N ->
  serverinfo_cli_parse_cb ctx ext_type _in inlen = Ok (ctx, 1%Z).
Proof.
  intros H. unfold serverinfo_cli_parse_cb.
  now destruct (N.eqb_spec ext_type 18).
Qed.

(** For a declared length that fits sixteen bits the callback stores the
    record and returns 1, whatever is readable behind the pointer. *)
Lemma serverinfo_cli_parse_cb_18_stores (ctx : SSLContext) (_in : bytes) (inlen : N) :
  (inlen <= 65535)%N ->
  serverinfo_cli_parse_cb ctx 18 _in inlen
  = Ok (set_tls_extension_18_tdf ctx
          (Some (pack_uint16_be 18 ++ pack_uint16_be inlen
                 ++ firstn (N.to_nat inlen) (ffi_buffer _in inlen)
                 ++ repeat x00 (N.to_nat inlen - List.length (ffi_buffer _in inlen)))),
        1%Z).
Proof.
  intros H. rewrite serverinfo_cli_parse_cb_18.
  change (PyInt 18) with (PyInt (Z.of_N 18)).
  rewrite struct_pack_extension_record by (assumption || lia).
  reflexivity.
Qed.

Lemma serverinfo_cli_parse_cb_18_overflow (ctx : SSLContext) (_in : bytes) (inlen : N) :
  (65535 < inlen)%N ->
  serverinfo_cli_parse_cb ctx 18 _in inlen = Raise StructError.
Proof.
  intros H. rewrite serverinfo_cli_parse_cb_18.
  change (PyInt 18) with (PyInt (Z.of_N 18)).
  rewrite struct_pack_length_overflow by (assumption || lia).
  reflexivity.
Qed.

(** C3: for a payload of [L] bytes, [0 <= L <= 65535], the callback called
    with extension type 18, declared length [L] and those bytes returns 1
    and leaves in the context's [tls_extension_18_tdf] attribute a record of
    [4 + L] bytes: 18 and [L] as big-endian 16-bit integers, then the
    payload; no other attribute changes, and decoding what the attribute
    then holds gives [(18, L, payload)]. *)
Theorem extension_18_capture_round_trip
  (ctx : SSLContext) (payload : bytes) (L : N) :
  N.of_nat (List.length payload) = L ->
  (L <= 65535)%N ->
  let record :=
    x00 :: x12 :: byte_of_N (L / 256) :: byte_of_N (L mod 256) :: payload in
  exists ctx',
    serverinfo_cli_parse_cb ctx 18 payload L = Ok (ctx', 1%Z)
    /\ tls_extension_18_tdf ctx' = Some record
    /\ ctx' = set_tls_extension_18_tdf ctx (Some record)
    /\ List.length record = (4 + List.length payload)%nat
    /\ match tls_extension_18_tdf ctx' with
       | Some stored => decode_extension_record stored
       | None => None
       end = Some (18%N, L, payload).
Proof.
  intros Hlen HL record. subst record.
  eexists. split; [| split; [| split; [reflexivity | split]]].
  - rewrite serverinfo_cli_parse_cb_18_stores by assumption.
    unfold ffi_buffer.
    assert (Hn : N.to_nat L = List.length payload) by lia.
    rewrite Hn, !firstn_all, Nat.sub_diag. cbn [repeat].
    rewrite List.app_nil_r. reflexivity.
  - reflexivity.
  - reflexivity.
  - cbn [tls_extension_18_tdf set_tls_extension_18_tdf].
    unfold decode_extension_record.
    rewrite unpack_pack_uint16_be by assumption.
    rewrite Hlen, N.eqb_refl. reflexivity.
Qed.

Lemma extension_18_capture_round_trip_witness :
  let ctx := new_Context SSLv23_METHOD in
  let record := [x00; x12; x00; x03; x0a; x0b; x0c] in
  exists ctx',
    serverinfo_cli_parse_cb ctx 18 [x0a; x0b; x0c] 3 = Ok (ctx', 1%Z)
    /\ tls_extension_18_tdf ctx' = Some record
    /\ ctx' = set_tls_extension_18_tdf ctx (Some record)
    /\ List.length record = 7%nat
    /\ match tls_extension_18_tdf ctx' with
       | Some stored => decode_extension_record stored
       | None => None
       end = Some (18%N, 3%N, [x0a; x0b; x0c]).
Proof.
  intros ctx.
  apply (@extension_18_capture_round_trip ctx [x0a; x0b; x0c] 3%N).
  - reflexivity.
  - vm_compute. discriminate.
Defined.

(** C6: the callback returns 1 on every call the TLS layer makes: for every
    extension type other than 18, and for type 18 with every declared
    length that the 16-bit length field of a TLS extension can announce (at
    most 65535), whatever the payload bytes and the context. *)
Theorem serverinfo_cli_parse_cb_returns_1
  (ctx : SSLContext) (ext_type : N) (_in : bytes) (inlen : N) :
  ext_type <> 18%N \/ (inlen <= 65535)%N ->
  exists ctx', serverinfo_cli_parse_cb ctx ext_type _in inlen = Ok (ctx', 1%Z).
Proof.
  intros H. destruct (N.eq_dec ext_type 18) as [-> | Hne].
  - destruct H as [H | H]; [congruence |].
    eexists. now apply serverinfo_cli_parse_cb_18_stores.
  - exists ctx. now apply serverinfo_cli_parse_cb_other.
Qed.

Lemma serverinfo_cli_parse_cb_returns_1_witness :
  exists ctx',
    serverinfo_cli_parse_cb (new_Context SSLv23_METHOD) 18 [x0a; x0b; x0c] 3
    = Ok (ctx', 1%Z).
Proof.
  apply (@serverinfo_cli_parse_cb_returns_1
           (new_Context SSLv23_METHOD) 18%N [x0a; x0b; x0c] 3%N).
  right. vm_compute. discriminate.
Defined.

Section HandshakeProperties.

Variable X509 : Type.
Variable dump_certificate : filetype -> X509 -> bytes.

Implicit Types (env : Env X509) (ctx : SSLContext) (tr : list op).

Lemma count_Close_app tr1 tr2 :
  count_Close (tr1 ++ tr2) = (count_Close tr1 + count_Close tr2)%nat.
Proof. unfold count_Close. now rewrite filter_app, length_app. Qed.

Lemma count_NewSocket_app tr1 tr2 :
  count_NewSocket (tr1 ++ tr2) = (count_NewSocket tr1 + count_NewSocket tr2)%nat.
Proof. unfold count_NewSocket. now rewrite filter_app, length_app. Qed.

Lemma quiet_app tr1 tr2 : quiet tr1 -> quiet tr2 -> quiet (tr1 ++ tr2).
Proof. unfold quiet. intros H1 H2. now rewrite forallb_app, H1, H2. Qed.

Lemma quiet_counts tr : quiet tr -> count_Close tr = 0%nat /\ count_NewSocket tr = 0%nat.
Proof.
  unfold quiet, count_Close, count_NewSocket.
  induction tr as [|o tr IH]; [now split|].
  cbn [forallb filter]. intros H. apply andb_prop in H as [Ho Htr].
  destruct (IH Htr) as [IH1 IH2].
  destruct o; cbn in Ho; try discriminate; cbn; auto.
Qed.

Lemma quiet_bind {A B} (m : io A) (k : A -> io B) :
  quiet (fst m) -> (forall a, quiet (fst (k a))) -> quiet (fst (io_bind m k)).
Proof.
  intros Hm Hk. destruct m as [tr [a|e]]; cbn [io_bind fst] in *.
  - specialize (Hk a). destruct (k a) as [tr' r]. cbn [fst] in *.
    now apply quiet_app.
  - assumption.
Qed.

Lemma quiet_deliver ctx ev : quiet (fst (deliver ctx ev)).
Proof.
  destruct ev as [ext_type data | ocsp_data]; cbn [deliver].
  - destruct (ctx_custom_ext_18 ctx && (ext_type =? 18)%N); [| reflexivity].
    apply quiet_bind; [reflexivity | intros _].
    destruct (serverinfo_cli_parse_cb _ _ _ _) as [[ctx' status]|e]; [| reflexivity].
    now destruct (status =? 0)%Z.
  - destruct (ctx_ocsp_client_callback ctx); [| reflexivity].
    apply quiet_bind; [reflexivity | intros _]. reflexivity.
Qed.

Lemma quiet_deliver_all evs : forall ctx, quiet (fst (deliver_all ctx evs)).
Proof.
  induction evs as [|ev evs IH]; intros ctx; cbn [deliver_all]; [reflexivity |].
  apply quiet_bind; [apply quiet_deliver | intros ctx'; apply IH].
Qed.

Lemma quiet_except {A} (body : io A) (handler : exn -> list op) :
  quiet (fst body) -> (forall e, quiet (handler e)) ->
  quiet (fst (except_Exception_reraise body handler)).
Proof.
  intros Hb Hh. destruct body as [tr [a|e]]; cbn [except_Exception_reraise fst] in *.
  - assumption.
  - destruct (is_Exception e); cbn [fst]; [apply quiet_app; auto | assumption].
Qed.

Lemma quiet_library_call {A} (o : op) (outcome : result A) :
  is_lifecycle o = false -> quiet (fst (library_call o outcome)).
Proof. intros H. unfold quiet. cbn. now rewrite H. Qed.

Lemma quiet_sock_do_handshake env ctx : quiet (fst (sock_do_handshake env ctx)).
Proof.
  unfold sock_do_handshake.
  apply quiet_bind; [reflexivity | intros _].
  apply quiet_bind; [apply quiet_deliver_all | intros ctx'].
  apply quiet_bind; [reflexivity | intros _]. reflexivity.
Qed.

Lemma create_socket_aborted env scts_tls scts_ocsp :
  registration_passes env scts_tls = false ->
  create_socket env scts_tls scts_ocsp
  = (registration_failure_output, Raise (SystemExit 1)).
Proof.
  unfold registration_passes, create_socket, create_context.
  destruct scts_tls, (SSL_CTX_add_client_custom_ext env); cbn; try discriminate.
  reflexivity.
Qed.

Lemma create_socket_passes env scts_tls scts_ocsp :
  registration_passes env scts_tls = true ->
  exists ctx,
    create_socket env scts_tls scts_ocsp = ([NewSocket], Ok ctx)
    /\ ctx_custom_ext_18 ctx = scts_tls
    /\ ctx_ocsp_client_callback ctx = scts_ocsp
    /\ tls_extension_18_tdf ctx = None
    /\ ocsp_resps ctx = []
    /\ ctx_verify ctx = Some (VERIFY_PEER, verify_callback)
    /\ ctx_verify_locations ctx = Some (certifi_where env).
Proof.
  unfold registration_passes, create_socket, create_context.
  destruct scts_tls, (SSL_CTX_add_client_custom_ext env), scts_ocsp; cbn;
    try discriminate; intros _; eexists; (split; [reflexivity |]); cbn; auto 10.
Qed.

Lemma do_handshake_aborted env domain scts_tls scts_ocsp :
  registration_passes env scts_tls = false ->
  do_handshake env domain scts_tls scts_ocsp
  = (registration_failure_output, Raise (SystemExit 1)).
Proof.
  intros H. unfold do_handshake. now rewrite (create_socket_aborted _ _ _ H).
Qed.

(** The [try] block of [do_handshake]: the connection attempt comes first,
    and nothing in the block or its handler opens or releases a socket. *)
Lemma try_block_trace {A} (domain : string) (outcome : result unit)
  (k : unit -> io A) (handler : exn -> list op) :
  (forall u, quiet (fst (k u))) -> (forall e, quiet (handler e)) ->
  exists tr,
    fst (except_Exception_reraise
           (io_bind (library_call (Connect domain 443) outcome) k) handler)
    = Connect domain 443 :: tr
    /\ quiet tr.
Proof.
  intros Hk Hh. destruct outcome as [u|e]; cbn [library_call io_bind].
  - specialize (Hk u). destruct (k u) as [tr' [a|e]]; cbn [fst] in Hk.
    + exists tr'. now split.
    + cbn [except_Exception_reraise app]. destruct (is_Exception e); cbn [fst app].
      * exists (tr' ++ handler e). split; [reflexivity | now apply quiet_app].
      * exists tr'. now split.
  - cbn [except_Exception_reraise]. destruct (is_Exception e); cbn [fst app].
    + exists (handler e). now split.
    + exists []. now split.
Qed.

Lemma do_handshake_started env domain scts_tls scts_ocsp :
  registration_passes env scts_tls = true ->
  exists tr,
    fst (do_handshake env domain scts_tls scts_ocsp)
    = NewSocket :: RequestOcsp :: Connect domain 443 :: tr ++ [Close]
    /\ quiet tr.
Proof.
  intros H. destruct (create_socket_passes env scts_tls scts_ocsp H) as (ctx & E & _).
  unfold do_handshake. rewrite E. cbn [io_bind emit].
  match goal with
  | |- context [finally (except_Exception_reraise (io_bind _ ?k) ?h) _] =>
      destruct (try_block_trace domain (connect_outcome env) k h) as (tr & Etr & Hq)
  end.
  - intros _.
    apply quiet_bind; [apply quiet_sock_do_handshake | intros ctx'].
    apply quiet_bind; [now apply quiet_library_call | intros chain].
    apply quiet_bind; [now apply quiet_library_call | intros certificate].
    apply quiet_bind; [| reflexivity].
    destruct scts_ocsp; [| reflexivity].
    destruct (ocsp_resps ctx'); [reflexivity |].
    apply quiet_bind; reflexivity.
  - intros e. reflexivity.
  - exists tr. split; [| exact Hq].
    unfold finally. rewrite Etr. reflexivity.
Qed.

(** What a successful [do_handshake] went through. *)
Lemma do_handshake_success_inv env domain scts_tls scts_ocsp
  tr certificate chain ocsp_response tdf :
  do_handshake env domain scts_tls scts_ocsp
  = (tr, Ok (certificate, chain, ocsp_response, tdf)) ->
  exists ctx0 ctx' dtr,
    create_socket env scts_tls scts_ocsp = ([NewSocket], Ok ctx0)
    /\ connect_outcome env = Ok tt
    /\ deliver_all ctx0 (handshake_events env) = (dtr, Ok ctx')
    /\ handshake_outcome env = Ok tt
    /\ peer_cert_chain env = Ok chain
    /\ peer_certificate env = Ok certificate
    /\ tr = [NewSocket; RequestOcsp; Connect domain 443; DoHandshake] ++ dtr
            ++ [GetPeerCertChain; GetPeerCertificate; Close]
    /\ tdf = (if scts_tls
              then if truthy_bytes (tls_extension_18_tdf ctx')
                   then tls_extension_18_tdf ctx' else None
              else None)
    /\ ocsp_response = (if scts_ocsp
                        then match ocsp_resps ctx' with
                             | r :: _ => Some r
                             | [] => None
                             end
                        else None).
Proof.
  intros H.
  destruct (registration_passes env scts_tls) eqn:Hreg.
  2: { rewrite (do_handshake_aborted env domain scts_tls scts_ocsp Hreg) in H.
       discriminate. }
  destruct (create_socket_passes env scts_tls scts_ocsp Hreg) as (ctx0 & E & _).
  exists ctx0. unfold do_handshake in H. rewrite E in H.
  unfold sock_do_handshake, library_call, finally, except_Exception_reraise in H.
  cbn [io_bind emit lift ret] in H.
  destruct (connect_outcome env) as [[]|e1]; cbn [io_bind fst snd app] in H.
  2: { destruct (is_Exception e1); discriminate. }
  destruct (deliver_all ctx0 (handshake_events env)) as [dtr [ctx'|e2]];
    cbn [io_bind fst snd app] in H.
  2: { destruct (is_Exception e2); discriminate. }
  destruct (handshake_outcome env) as [[]|e3]; cbn [io_bind fst snd app] in H.
  2: { destruct (is_Exception e3); discriminate. }
  destruct (peer_cert_chain env) as [chain'|e4]; cbn [io_bind fst snd app] in H.
  2: { destruct (is_Exception e4); discriminate. }
  destruct (peer_certificate env) as [cert'|e5]; cbn [io_bind fst snd app] in H.
  2: { destruct (is_Exception e5); discriminate. }
  exists ctx', dtr.
  destruct scts_ocsp; [destruct (ocsp_resps ctx') as [|r rs] eqn:Eo |];
    cbn [getitem nth_error io_bind ret lift fst snd app] in H;
    inversion H; subst; clear H;
    repeat split; try reflexivity; try exact E;
    cbn [app]; rewrite <- ?List.app_assoc; reflexivity.
Qed.

(** The extension callback touches no attribute but [tls_extension_18_tdf]. *)
Lemma serverinfo_cli_parse_cb_frame ctx ext_type _in inlen ctx' status :
  serverinfo_cli_parse_cb ctx ext_type _in inlen = Ok (ctx', status) ->
  ocsp_resps ctx' = ocsp_resps ctx
  /\ ctx_ocsp_client_callback ctx' = ctx_ocsp_client_callback ctx
  /\ ctx_custom_ext_18 ctx' = ctx_custom_ext_18 ctx.
Proof.
  destruct (N.eq_dec ext_type 18) as [-> | Hne].
  - rewrite serverinfo_cli_parse_cb_18.
    destruct (struct_pack _ _) as [packed|e]; cbn [bind]; [| discriminate].
    intros H. inversion H. now subst.
  - rewrite (serverinfo_cli_parse_cb_other ctx ext_type _in inlen Hne).
    intros H. inversion H. now subst.
Qed.

Lemma ocsp_callback_calls_app tr1 tr2 :
  ocsp_callback_calls (tr1 ++ tr2)
  = ocsp_callback_calls tr1 ++ ocsp_callback_calls tr2.
Proof.
  induction tr1 as [|o tr1 IH]; [reflexivity |].
  destruct o; cbn [app ocsp_callback_calls]; now rewrite IH.
Qed.

Lemma deliver_ocsp ctx ev tr ctx' :
  deliver ctx ev = (tr, Ok ctx') ->
  ocsp_resps ctx' = ocsp_resps ctx ++ ocsp_callback_calls tr
  /\ ctx_ocsp_client_callback ctx' = ctx_ocsp_client_callback ctx
  /\ (ctx_ocsp_client_callback ctx = false -> ocsp_callback_calls tr = []).
Proof.
  destruct ev as [ext_type data | ocsp_data]; cbn [deliver].
  - destruct (ctx_custom_ext_18 ctx && (ext_type =? 18)%N).
    + cbn [io_bind emit].
      destruct (serverinfo_cli_parse_cb _ _ _ _) as [[ctx1 status]|e] eqn:Ecb.
      * destruct (serverinfo_cli_parse_cb_frame _ _ _ _ _ _ Ecb) as (Ho & Hc & _).
        destruct (status =? 0)%Z; cbn [raise ret]; intros H; inversion H; subst.
        cbn [app ocsp_callback_calls]. rewrite List.app_nil_r. auto.
      * cbn [raise]. discriminate.
    + intros H. inversion H; subst. cbn. rewrite List.app_nil_r. auto.
  - destruct (ctx_ocsp_client_callback ctx) eqn:Ecb.
    + cbn. intros H. inversion H; subst. cbn. repeat split; auto. discriminate.
    + intros H. inversion H; subst. cbn. rewrite List.app_nil_r. auto.
Qed.

Lemma deliver_all_ocsp evs :
  forall ctx tr ctx',
    deliver_all ctx evs = (tr, Ok ctx') ->
    ocsp_resps ctx' = ocsp_resps ctx ++ ocsp_callback_calls tr
    /\ (ctx_ocsp_client_callback ctx = false -> ocsp_callback_calls tr = []).
Proof.
  induction evs as [|ev evs IH]; intros ctx tr ctx'; cbn [deliver_all].
  - intros H. inversion H; subst. cbn. rewrite List.app_nil_r. auto.
  - destruct (deliver ctx ev) as [tr1 [ctx1|e]] eqn:E1; cbn [io_bind];
      [| discriminate].
    destruct (deliver_all ctx1 evs) as [tr2 r2] eqn:E2.
    intros H. inversion H; subst. 
    destruct (deliver_ocsp _ _ _ _ E1) as (Ho1 & Hc1 & Hn1).
    destruct (IH _ _ _ E2) as (Ho2 & Hn2).
    rewrite ocsp_callback_calls_app. split.
    + now rewrite Ho2, Ho1, List.app_assoc.
    + intros Hf. rewrite (Hn1 Hf), Hn2; [reflexivity | congruence].
Qed.

Lemma create_context_passes env scts_tls scts_ocsp :
  registration_passes env scts_tls = true ->
  exists ctx, create_context env scts_tls scts_ocsp = ([], Ok ctx).
Proof.
  unfold registration_passes, create_context.
  destruct scts_tls, (SSL_CTX_add_client_custom_ext env), scts_ocsp; cbn;
    try discriminate; intros _; eexists; reflexivity.
Qed.

Lemma deliver_raises ctx ev tr e :
  deliver ctx ev = (tr, Raise e) -> e = SSLError.
Proof.
  destruct ev as [ext_type data | ocsp_data]; cbn [deliver].
  - destruct (ctx_custom_ext_18 ctx && (ext_type =? 18)%N); [| discriminate].
    cbn [io_bind emit].
    destruct (serverinfo_cli_parse_cb _ _ _ _) as [[ctx1 status]|e'].
    + destruct (status =? 0)%Z; cbn [raise ret]; intros H; now inversion H.
    + cbn [raise]. intros H. now inversion H.
  - destruct (ctx_ocsp_client_callback ctx); [| discriminate].
    cbn. discriminate.
Qed.

Lemma deliver_all_raises evs :
  forall ctx tr e, deliver_all ctx evs = (tr, Raise e) -> e = SSLError.
Proof.
  induction evs as [|ev evs IH]; intros ctx tr e; cbn [deliver_all].
  - discriminate.
  - destruct (deliver ctx ev) as [tr1 [ctx1|e1]] eqn:E1; cbn [io_bind].
    + destruct (deliver_all ctx1 evs) as [tr2 [ctx2|e2]] eqn:E2.
      * discriminate.
      * intros H. inversion H. subst. exact (IH _ _ _ E2).
    + intros H. inversion H. subst. exact (deliver_raises _ _ _ _ E1).
Qed.

Lemma create_context_configuration env scts_tls scts_ocsp tr ctx :
  create_context env scts_tls scts_ocsp = (tr, Ok ctx) ->
  ctx_method ctx = SSLv23_METHOD
  /\ ctx_options ctx = [OP_NO_SSLv2; OP_NO_SSLv3]
  /\ ctx_verify ctx = Some (VERIFY_PEER, verify_callback)
  /\ ctx_verify_locations ctx = Some (certifi_where env)
  /\ ctx_custom_ext_18 ctx = scts_tls
  /\ ctx_ocsp_client_callback ctx = scts_ocsp.
Proof.
  unfold create_context.
  destruct scts_tls, (SSL_CTX_add_client_custom_ext env), scts_ocsp;
    cbn; intros H; inversion H; subst; cbn; auto 10.
Qed.

(** C9: the verification callback that [create_context] installs returns 1
    for every connection, certificate, error number, depth and preliminary
    verdict, so its answer does not depend on them; whenever the
    registration of the extension callback does not abort the process,
    [create_context] writes nothing and returns a context, and the context
    it returns has this callback set for peer verification and the CA
    bundle named by [certifi.where()] loaded. *)
Theorem verify_callback_accepts_everything :
  (forall (Conn Cert : Type) (conn : Conn) (cert : Cert) (errnum depth ok : Z),
      @verify_callback Conn Cert conn cert errnum depth ok = 1%Z)
  /\ (forall env scts_tls scts_ocsp,
        registration_passes env scts_tls = true ->
        exists ctx,
          create_context env scts_tls scts_ocsp = ([], Ok ctx)
          /\ ctx_verify ctx = Some (VERIFY_PEER, verify_callback)
          /\ ctx_verify_locations ctx = Some (certifi_where env))
  /\ (forall env scts_tls scts_ocsp tr ctx,
        create_context env scts_tls scts_ocsp = (tr, Ok ctx) ->
        ctx_verify ctx = Some (VERIFY_PEER, verify_callback)
        /\ ctx_verify_locations ctx = Some (certifi_where env)).
Proof.
  split; [reflexivity | split].
  - intros env scts_tls scts_ocsp Hreg.
    destruct (create_context_passes env scts_tls scts_ocsp Hreg) as (ctx & E).
    exists ctx. split; [exact E |].
    destruct (create_context_configuration _ _ _ _ _ E) as (_ & _ & Hv & Hl & _).
    now split.
  - intros env scts_tls scts_ocsp tr ctx H.
    destruct (create_context_configuration _ _ _ _ _ H) as (_ & _ & Hv & Hl & _).
    now split.
Qed.

(** [cert_of_domain] after a successful handshake with a chain of at least
    two certificates, for any serialisation. *)
Lemma cert_of_domain_long_chain env domain scts_tls scts_ocsp
  tr certificate chain ocsp_response tdf :
  do_handshake env domain scts_tls scts_ocsp
  = (tr, Ok (certificate, Some chain, ocsp_response, tdf)) ->
  (2 <= List.length chain)%nat ->
  exists issuer,
    nth_error chain 1 = Some issuer
    /\ cert_of_domain dump_certificate env domain scts_tls scts_ocsp
       = (tr, Ok (dump_certificate FILETYPE_ASN1 certificate,
                  dump_certificate FILETYPE_ASN1 issuer,
                  ocsp_response, tdf)).
Proof.
  intros H Hlen.
  destruct chain as [|leaf [|issuer more]]; cbn [List.length] in Hlen; try lia.
  exists issuer. split; [reflexivity |].
  unfold cert_of_domain. rewrite H.
  cbn [io_bind lift getitem_or_None getitem nth_error ret].
  now rewrite List.app_nil_r.
Qed.

(** C1: after a successful handshake whose chain holds at least two
    certificates and starts, as the TLS library has it, with the peer's own
    certificate, [cert_of_domain] returns as leaf bytes the DER encoding of
    [chain[0]], which is the certificate [get_peer_certificate] returned,
    and as issuer bytes the DER encoding of [chain[1]]; both are non-empty,
    starting with the SEQUENCE tag. *)
Theorem cert_of_domain_returns_leaf_and_issuer (content pem : X509 -> bytes)
  env domain scts_tls scts_ocsp tr certificate chain ocsp_response tdf :
  do_handshake env domain scts_tls scts_ocsp
  = (tr, Ok (certificate, Some chain, ocsp_response, tdf)) ->
  (2 <= List.length chain)%nat ->
  nth_error chain 0 = Some certificate ->
  exists leaf issuer,
    nth_error chain 0 = Some leaf
    /\ nth_error chain 1 = Some issuer
    /\ peer_certificate env = Ok leaf
    /\ peer_cert_chain env = Ok (Some chain)
    /\ cert_of_domain (asn1_dump content pem) env domain scts_tls scts_ocsp
       = (tr, Ok (asn1_dump content pem FILETYPE_ASN1 leaf,
                  asn1_dump content pem FILETYPE_ASN1 issuer,
                  ocsp_response, tdf))
    /\ asn1_dump content pem FILETYPE_ASN1 leaf <> []
    /\ asn1_dump content pem FILETYPE_ASN1 issuer <> [].
Proof.
  intros H Hlen Hhead.
  destruct (do_handshake_success_inv _ _ _ _ _ _ _ _ _ H)
    as (ctx0 & ctx' & dtr & _ & _ & _ & _ & Hchain & Hcert & _).
  destruct chain as [|leaf [|issuer more]]; cbn [List.length] in Hlen; try lia.
  exists certificate, issuer.
  repeat split; auto; try (cbn [asn1_dump]; discriminate).
  unfold cert_of_domain. rewrite H.
  cbn [io_bind lift getitem_or_None getitem nth_error ret].
  now rewrite List.app_nil_r.
Qed.

(** What makes [do_handshake] fail: the exit of [create_context], a callback
    failing the handshake, or a call into the socket or TLS library. *)
Lemma do_handshake_failure_source env domain scts_tls scts_ocsp e :
  snd (do_handshake env domain scts_tls scts_ocsp) = Raise e ->
  e = SystemExit 1
  \/ e = SSLError
  \/ connect_outcome env = Raise e
  \/ handshake_outcome env = Raise e
  \/ peer_cert_chain env = Raise e
  \/ peer_certificate env = Raise e.
Proof.
  destruct (registration_passes env scts_tls) eqn:Hreg.
  2: { rewrite (do_handshake_aborted env domain scts_tls scts_ocsp Hreg).
       cbn [snd]. intros H. inversion H. now left. }
  destruct (create_socket_passes env scts_tls scts_ocsp Hreg) as (ctx0 & E & _).
  unfold do_handshake. rewrite E.
  unfold sock_do_handshake, library_call, finally, except_Exception_reraise.
  cbn [io_bind emit lift ret].
  destruct (connect_outcome env) as [[]|e1]; cbn [io_bind fst snd app].
  2: { destruct (is_Exception e1); cbn [snd]; intros H; inversion H; auto. }
  destruct (deliver_all ctx0 (handshake_events env)) as [dtr [ctx'|e2]] eqn:Hdel;
    cbn [io_bind fst snd app].
  2: { apply deliver_all_raises in Hdel. subst e2.
       destruct (is_Exception SSLError); cbn [snd]; intros H; inversion H; auto. }
  destruct (handshake_outcome env) as [[]|e3]; cbn [io_bind fst snd app].
  2: { destruct (is_Exception e3); cbn [snd]; intros H; inversion H; auto. }
  destruct (peer_cert_chain env) as [chain'|e4]; cbn [io_bind fst snd app].
  2: { destruct (is_Exception e4); cbn [snd]; intros H; inversion H; auto 10. }
  destruct (peer_certificate env) as [cert'|e5]; cbn [io_bind fst snd app].
  2: { destruct (is_Exception e5); cbn [snd]; intros H; inversion H; auto 10. }
  destruct scts_ocsp; [destruct (ocsp_resps ctx') as [|r rs] |];
    cbn [getitem nth_error io_bind ret lift fst snd app]; discriminate.
Qed.

(** C4: after a successful handshake whose chain holds no or one
    certificate, [cert_of_domain] fails: the lookup [chain[1]] raises
    [IndexError], which nothing catches on its way to the caller.  The
    fault can be told from every other failure: when no call into the
    socket or TLS library raises [IndexError], a run of [cert_of_domain]
    that ends in [IndexError] is a run whose handshake succeeded with a
    chain shorter than two. *)
Theorem cert_of_domain_missing_issuer_fault env domain scts_tls scts_ocsp :
  (forall tr certificate chain ocsp_response tdf,
      do_handshake env domain scts_tls scts_ocsp
      = (tr, Ok (certificate, Some chain, ocsp_response, tdf)) ->
      (List.length chain < 2)%nat ->
      cert_of_domain dump_certificate env domain scts_tls scts_ocsp
      = (tr, Raise IndexError))
  /\ (library_never_raises IndexError env ->
      snd (cert_of_domain dump_certificate env domain scts_tls scts_ocsp)
      = Raise IndexError ->
      missing_issuer env domain scts_tls scts_ocsp).
Proof.
  split.
  - intros tr certificate chain ocsp_response tdf H Hlen.
    unfold cert_of_domain. rewrite H.
    destruct chain as [|leaf [|issuer more]]; cbn [List.length] in Hlen; try lia;
      cbn [io_bind lift getitem_or_None getitem nth_error];
      now rewrite List.app_nil_r.
  - intros (Hc & Hh & Hch & Hp) H.
    unfold cert_of_domain in H.
    destruct (do_handshake env domain scts_tls scts_ocsp)
      as [tr [[[[certificate chain] ocsp_response] tdf]|e]] eqn:E.
    + destruct chain as [chain|]; [| cbn in H; discriminate H].
      exists tr, certificate, chain, ocsp_response, tdf. split; [exact E |].
      destruct chain as [|leaf [|issuer more]]; cbn [List.length]; try lia.
      cbn in H. discriminate H.
    + cbn [io_bind snd] in H. inversion H. subst e.
      assert (Hsrc := do_handshake_failure_source env domain scts_tls scts_ocsp
                        IndexError).
      rewrite E in Hsrc. specialize (Hsrc eq_refl).
      destruct Hsrc as [Hs | [Hs | [Hs | [Hs | [Hs | Hs]]]]];
        try discriminate Hs; contradiction.
Qed.


(** C7: when the OCSP callback was called during a handshake that
    succeeded, with responses [r1], then [rs], the result of [do_handshake]
    carries [r1] as its OCSP response and none of [rs]. *)
Theorem do_handshake_keeps_first_ocsp_response env domain scts_tls scts_ocsp
  tr certificate chain ocsp_response tdf r1 rs :
  do_handshake env domain scts_tls scts_ocsp
  = (tr, Ok (certificate, chain, ocsp_response, tdf)) ->
  ocsp_callback_calls tr = r1 :: rs ->
  ocsp_response = Some r1.
Proof.
  intros H Hcalls.
  destruct (do_handshake_success_inv _ _ _ _ _ _ _ _ _ H)
    as (ctx0 & ctx' & dtr & Hsock & _ & Hdel & _ & _ & _ & Htr & _ & Hocsp).
  destruct (registration_passes env scts_tls) eqn:Hreg.
  2: { rewrite (create_socket_aborted env scts_tls scts_ocsp Hreg) in Hsock.
       discriminate. }
  destruct (create_socket_passes env scts_tls scts_ocsp Hreg)
    as (ctx1 & E1 & _ & Hcb & _ & Hresps & _).
  rewrite E1 in Hsock. inversion Hsock; subst ctx1.
  destruct (deliver_all_ocsp _ _ _ _ Hdel) as (Hbuf & Hnone).
  assert (Hdtr : ocsp_callback_calls dtr = r1 :: rs).
  { rewrite Htr in Hcalls. rewrite !ocsp_callback_calls_app in Hcalls.
    cbn in Hcalls. now rewrite List.app_nil_r in Hcalls. }
  rewrite Hresps, Hdtr in Hbuf. cbn [app] in Hbuf.
  destruct scts_ocsp.
  - now rewrite Hocsp, Hbuf.
  - rewrite Hcb in Hnone. rewrite Hnone in Hdtr by reflexivity. discriminate.
Qed.

(** C8: once the socket exists, whatever [connect], the handshake and the
    retrieval of chain and certificate do (return or raise), [do_handshake]
    calls [sock.close()] exactly once, as its last operation, for the one
    socket it created. *)
Theorem do_handshake_closes_exactly_once env domain scts_tls scts_ocsp :
  registration_passes env scts_tls = true ->
  let tr := fst (do_handshake env domain scts_tls scts_ocsp) in
  count_Close tr = 1%nat
  /\ count_NewSocket tr = 1%nat
  /\ exists before, tr = before ++ [Close].
Proof.
  intros H tr. subst tr.
  destruct (do_handshake_started env domain scts_tls scts_ocsp H) as (tr & E & Hq).
  rewrite E. destruct (quiet_counts tr Hq) as [Hc Hs].
  repeat split.
  - change (NewSocket :: RequestOcsp :: Connect domain 443 :: tr ++ [Close])
      with ([NewSocket; RequestOcsp; Connect domain 443] ++ tr ++ [Close]).
    rewrite !count_Close_app, Hc. reflexivity.
  - change (NewSocket :: RequestOcsp :: Connect domain 443 :: tr ++ [Close])
      with ([NewSocket; RequestOcsp; Connect domain 443] ++ tr ++ [Close]).
    rewrite !count_NewSocket_app, Hs. reflexivity.
  - exists (NewSocket :: RequestOcsp :: Connect domain 443 :: tr). reflexivity.
Qed.

(** C10: whenever [do_handshake] gets a socket, its first operation on it is
    [request_ocsp()], before [connect] and the handshake, for either value
    of [scts_ocsp]. *)
Theorem do_handshake_requests_ocsp_unconditionally env domain scts_tls scts_ocsp :
  registration_passes env scts_tls = true ->
  exists rest,
    fst (do_handshake env domain scts_tls scts_ocsp)
    = NewSocket :: RequestOcsp :: Connect domain 443 :: rest.
Proof.
  intros H.
  destruct (do_handshake_started env domain scts_tls scts_ocsp H) as (tr & E & _).
  exists (tr ++ [Close]). exact E.
Qed.

(** On every run, the abandoned one included, [do_handshake] closes as many
    sockets as it created, and it creates at most one. *)
Theorem do_handshake_closes_what_it_opens env domain scts_tls scts_ocsp :
  let tr := fst (do_handshake env domain scts_tls scts_ocsp) in
  count_Close tr = count_NewSocket tr /\ (count_NewSocket tr <= 1)%nat.
Proof.
  intros tr. subst tr.
  destruct (registration_passes env scts_tls) eqn:Hreg.
  - destruct (do_handshake_started env domain scts_tls scts_ocsp Hreg)
      as (tr & E & Hq).
    rewrite E. destruct (quiet_counts tr Hq) as [Hc Hs].
    change (NewSocket :: RequestOcsp :: Connect domain 443 :: tr ++ [Close])
      with ([NewSocket; RequestOcsp; Connect domain 443] ++ tr ++ [Close]).
    rewrite !count_Close_app, !count_NewSocket_app, Hc, Hs. cbn. lia.
  - rewrite (do_handshake_aborted env domain scts_tls scts_ocsp Hreg). cbn. lia.
Qed.

(** A failure of [connect] reaches the caller unchanged, after the
    diagnostics are printed and the socket is closed. *)
Theorem do_handshake_propagates_connect_failure env domain scts_tls scts_ocsp exc :
  registration_passes env scts_tls = true ->
  connect_outcome env = Raise exc ->
  is_Exception exc = true ->
  do_handshake env domain scts_tls scts_ocsp
  = ([NewSocket; RequestOcsp; Connect domain 443; Stdout_diagnostics exc; Close],
     Raise exc).
Proof.
  intros Hreg Hc Hexc.
  destruct (create_socket_passes env scts_tls scts_ocsp Hreg) as (ctx & E & _).
  unfold do_handshake. rewrite E. cbn [io_bind emit].
  unfold library_call, finally, except_Exception_reraise.
  rewrite Hc. cbn [io_bind]. rewrite Hexc. reflexivity.
Qed.

End HandshakeProperties.

(** ** The handshake properties on concrete runs *)

Lemma verify_callback_accepts_everything_witness :
  let env := example_env [StapledOcspResponse [x01]] [[x0a]; [x0b]] [x0a] in
  registration_passes env true = true
  /\ exists ctx,
       create_context env true true = ([], Ok ctx)
       /\ ctx_verify ctx = Some (VERIFY_PEER, verify_callback)
       /\ ctx_verify_locations ctx = Some "cacert.pem"%string.
Proof.
  intros env. split; [reflexivity |].
  exact (proj1 (proj2 (verify_callback_accepts_everything bytes))
           env true true eq_refl).
Defined.

Lemma cert_of_domain_returns_leaf_and_issuer_witness :
  let env := example_env [] [[x0a]; [x0b]] [x0a] in
  exists leaf issuer,
    nth_error [[x0a]; [x0b]] 0 = Some leaf
    /\ nth_error [[x0a]; [x0b]] 1 = Some issuer
    /\ peer_certificate env = Ok leaf
    /\ peer_cert_chain env = Ok (Some [[x0a]; [x0b]])
    /\ cert_of_domain example_dump env "example.org" true true
       = (fst (do_handshake env "example.org" true true),
          Ok (example_dump FILETYPE_ASN1 leaf, example_dump FILETYPE_ASN1 issuer,
              None, None))
    /\ example_dump FILETYPE_ASN1 leaf <> []
    /\ example_dump FILETYPE_ASN1 issuer <> [].
Proof.
  intros env.
  apply (cert_of_domain_returns_leaf_and_issuer bytes (fun body => body)
           (fun body => body) env "example.org"
           true true (fst (do_handshake env "example.org" true true))
           [x0a] [[x0a]; [x0b]] None None).
  - reflexivity.
  - cbn. lia.
  - reflexivity.
Defined.

Lemma cert_of_domain_missing_issuer_fault_witness :
  let env := example_env [] [[x0a]] [x0a] in
  cert_of_domain example_dump env "example.org" true true
  = (fst (do_handshake env "example.org" true true), Raise IndexError)
  /\ library_never_raises IndexError env
  /\ missing_issuer env "example.org" true true.
Proof.
  intros env.
  assert (Hlib : library_never_raises IndexError env).
  { repeat split; discriminate. }
  split; [| split; [exact Hlib |]].
  - apply (proj1 (cert_of_domain_missing_issuer_fault bytes example_dump env
                    "example.org" true true)
             (fst (do_handshake env "example.org" true true))
             [x0a] [[x0a]] None None).
    + reflexivity.
    + cbn. lia.
  - apply (proj2 (cert_of_domain_missing_issuer_fault bytes example_dump env
                    "example.org" true true) Hlib).
    reflexivity.
Defined.


Lemma do_handshake_keeps_first_ocsp_response_witness :
  let env := example_env
               [StapledOcspResponse [x01]; ServerExtension 18 [x07; x08];
                StapledOcspResponse [x02]]
               [[x0a]; [x0b]] [x0a] in
  let tr := fst (do_handshake env "example.org" true true) in
  let tdf := Some [x00; x12; x00; x02; x07; x08] in
  do_handshake env "example.org" true true
    = (tr, Ok ([x0a], Some [[x0a]; [x0b]], Some [x01], tdf))
  /\ ocsp_callback_calls tr = [[x01]; [x02]]
  /\ Some [x01] = Some [x01].
Proof.
  intros env tr tdf.
  split; [reflexivity | split; [reflexivity |]].
  apply (do_handshake_keeps_first_ocsp_response bytes env "example.org" true true
           tr [x0a] (Some [[x0a]; [x0b]]) (Some [x01]) tdf [x01] [[x02]]);
    reflexivity.
Defined.

Lemma do_handshake_closes_exactly_once_witness :
  let failing := mkEnv "cacert.pem" true (Raise (OSError 111)) []
                   (Ok tt) (Ok (Some [[x0a]; [x0b]])) (Ok [x0a]) in
  let tr := fst (do_handshake failing "example.org" true true) in
  count_Close tr = 1%nat
  /\ count_NewSocket tr = 1%nat
  /\ exists before, tr = before ++ [Close].
Proof.
  intros failing.
  apply (do_handshake_closes_exactly_once bytes failing "example.org" true true).
  reflexivity.
Defined.

Lemma do_handshake_requests_ocsp_unconditionally_witness :
  let env := example_env [] [[x0a]; [x0b]] [x0a] in
  exists rest,
    fst (do_handshake env "example.org" false false)
    = NewSocket :: RequestOcsp :: Connect "example.org" 443 :: rest.
Proof.
  intros env.
  apply (do_handshake_requests_ocsp_unconditionally bytes env "example.org" false false).
  reflexivity.
Defined.

Lemma do_handshake_propagates_connect_failure_witness :
  let failing := mkEnv "cacert.pem" true (Raise (OSError 111)) []
                   (Ok tt) (Ok (Some [[x0a]; [x0b]])) (Ok [x0a]) in
  do_handshake failing "example.org" true true
  = ([NewSocket; RequestOcsp; Connect "example.org" 443;
      Stdout_diagnostics (OSError 111); Close],
     Raise (OSError 111)).
Proof.
  intros failing.
  apply (do_handshake_propagates_connect_failure bytes failing "example.org"
           true true (OSError 111)); reflexivity.
Defined.

(** ** Hexadecimal text *)

Lemma unhexlify_hex_byte (b : byte) (rest : string) :
  unhexlify (String (hexdigit (Byte.to_N b / 16))
               (String (hexdigit (Byte.to_N b mod 16)) rest))
  = (value <- unhexlify rest ;; Ok (b :: value)).
Proof. destruct b; reflexivity. Qed.

Lemma unhexlify_hex_of_bytes (value : bytes) :
  unhexlify (hex_of_bytes value) = Ok value.
Proof.
  induction value as [|b value IH]; [reflexivity |].
  cbn [hex_of_bytes]. rewrite unhexlify_hex_byte, IH. reflexivity.
Qed.

Lemma lacks_x_hex_byte (b : byte) (rest : string) :
  lacks "x" (String (hexdigit (Byte.to_N b / 16))
               (String (hexdigit (Byte.to_N b mod 16)) rest))
  = lacks "x" rest.
Proof. destruct b; reflexivity. Qed.

Lemma lacks_x_hex_of_bytes (value : bytes) : lacks "x" (hex_of_bytes value) = true.
Proof.
  induction value as [|b value IH]; [reflexivity |].
  cbn [hex_of_bytes]. now rewrite lacks_x_hex_byte.
Qed.

(** ** Splitting at ["0x"] *)

Lemma append_nil_r (s : string) : (s ++ "")%string = s.
Proof. induction s as [|c s IH]; cbn; [reflexivity | now rewrite IH]. Qed.

Lemma string_of_list_ascii_snoc (l : list ascii) (c : ascii) (s : string) :
  (string_of_list_ascii (l ++ [c]) ++ s)%string
  = (string_of_list_ascii l ++ String c s)%string.
Proof. induction l as [|a l IH]; cbn; [reflexivity | now rewrite IH]. Qed.

(** A text without the letter x holds no separator: it is one piece. *)
Lemma split_from_0x_lacks_x (s : string) :
  forall cur : list ascii,
    lacks "x" s = true ->
    split_from "0x" 0 cur s = [(string_of_list_ascii (rev cur) ++ s)%string].
Proof.
  induction s as [|c s IH]; intros cur H.
  - cbn. now rewrite append_nil_r.
  - cbn [lacks] in H. apply andb_prop in H as [Hc Hs].
    cbn [split_from].
    assert (Hp : String.prefix "0x" (String c s) = false).
    { cbn [String.prefix]. destruct (ascii_dec "0" c); [| reflexivity].
      destruct s as [|c' s']; [reflexivity |].
      cbn [lacks] in Hs. apply andb_prop in Hs as [Hc' _].
      cbn [String.prefix].
      destruct (ascii_dec "x" c') as [<- |]; [discriminate | reflexivity]. }
    rewrite Hp, IH by assumption.
    cbn [rev]. now rewrite string_of_list_ascii_snoc.
Qed.

Lemma split_0x_prefixed (h : string) :
  lacks "x" h = true -> split ("0x" ++ h) "0x" = [EmptyString; h].
Proof.
  intros H. unfold split.
  change ("0x" ++ h)%string with (String "0" (String "x" h)).
  cbn [split_from].
  replace (String.prefix "0x" (String "0" (String "x" h))) with true
    by (destruct h; reflexivity).
  cbn [String.length Nat.sub split_from rev string_of_list_ascii].
  now rewrite (split_from_0x_lacks_x h [] H).
Qed.

Lemma length_string_of_list_ascii (l : list ascii) :
  String.length (string_of_list_ascii l) = List.length l.
Proof. induction l as [|a l IH]; cbn; [reflexivity | now rewrite IH]. Qed.

(** Every piece of a split is no longer than what was read. *)
Lemma split_from_piece_length (sep s : string) :
  forall (skip : nat) (cur : list ascii) (piece : string),
    In piece (split_from sep skip cur s) ->
    (String.length piece <= List.length cur + String.length s)%nat.
Proof.
  induction s as [|c s IH]; intros skip cur piece Hin.
  - cbn in Hin. destruct Hin as [<- | []].
    rewrite length_string_of_list_ascii, length_rev. lia.
  - cbn [split_from] in Hin. cbn [String.length].
    destruct skip as [|skip'].
    + destruct (String.prefix sep (String c s)).
      * destruct Hin as [<- | Hin].
        -- rewrite length_string_of_list_ascii, length_rev. lia.
        -- apply IH in Hin. cbn [List.length] in Hin. lia.
      * apply IH in Hin. cbn [List.length] in Hin. lia.
    + apply IH in Hin. lia.
Qed.

Lemma getitem_last_In {A : Type} (seq : list A) (x : A) :
  getitem_last seq = Ok x -> In x seq.
Proof.
  unfold getitem_last. destruct (rev seq) as [|y l] eqn:E; [discriminate |].
  intros H. inversion H; subst. apply in_rev. rewrite E. now left.
Qed.

Lemma unhexlify_length (hexstr : string) :
  forall value : bytes,
    unhexlify hexstr = Ok value ->
    (2 * List.length value = String.length hexstr)%nat.
Proof.
  induction hexstr as [hexstr IH] using (well_founded_induction
    (Wf_nat.well_founded_ltof _ String.length)).
  intros value H. destruct hexstr as [|c1 [|c2 rest]].
  - inversion H. reflexivity.
  - discriminate.
  - cbn [unhexlify] in H.
    destruct (unhex_digit c1), (unhex_digit c2); try discriminate.
    destruct (unhexlify rest) as [v|e] eqn:E; [| discriminate].
    cbn [bind] in H. inversion H; subst.
    assert (Hlt : Wf_nat.ltof _ String.length rest (String c1 (String c2 rest)))
      by (unfold Wf_nat.ltof; cbn; lia).
    specialize (IH rest Hlt v E). cbn [List.length String.length]. lia.
Qed.

Lemma length_text_of_bytes (value : bytes) :
  String.length (text_of_bytes value) = List.length value.
Proof. induction value as [|b value IH]; cbn; [reflexivity | now rewrite IH]. Qed.

(** ** DER octet strings: decoding an encoding *)

Lemma be_decode_app (xs ys : bytes) :
  forall acc : N, be_decode acc (xs ++ ys) = be_decode (be_decode acc xs) ys.
Proof. induction xs as [|x xs IH]; intros acc; cbn; [reflexivity | apply IH]. Qed.

Lemma be_bytes_aux_acc (fuel : nat) :
  forall (n : N) (acc : bytes),
    be_bytes_aux fuel n acc = be_bytes_aux fuel n [] ++ acc.
Proof.
  induction fuel as [|fuel IH]; intros n acc; cbn [be_bytes_aux]; [reflexivity |].
  destruct (n =? 0)%N; [reflexivity |].
  rewrite (IH _ (_ :: acc)), (IH _ [_]), <- List.app_assoc. reflexivity.
Qed.

Lemma be_decode_be_bytes_aux (fuel : nat) :
  forall n : N,
    (n < 2 ^ N.of_nat fuel)%N -> be_decode 0 (be_bytes_aux fuel n []) = n.
Proof.
  induction fuel as [|fuel IH]; intros n H; cbn [be_bytes_aux].
  - cbn in H. cbn. lia.
  - destruct (N.eqb_spec n 0) as [-> | Hn]; [reflexivity |].
    rewrite be_bytes_aux_acc, be_decode_app, IH.
    + cbn [be_decode]. rewrite to_N_byte_of_N by (apply N.mod_lt; lia).
      rewrite (N.div_mod n 256) at 3 by lia. lia.
    + rewrite Nnat.Nat2N.inj_succ, N.pow_succ_r' in H.
      apply N.Div0.div_lt_upper_bound. lia.
Qed.

Lemma length_be_bytes_aux (fuel : nat) :
  forall (n : N) (acc : bytes),
    (List.length (be_bytes_aux fuel n acc) <= fuel + List.length acc)%nat.
Proof.
  induction fuel as [|fuel IH]; intros n acc; cbn [be_bytes_aux]; [lia |].
  destruct (n =? 0)%N; [lia |].
  specialize (IH (n / 256)%N (byte_of_N (n mod 256) :: acc)).
  cbn [List.length] in IH. lia.
Qed.

Lemma be_decode_be_bytes (n : N) : be_decode 0 (be_bytes n) = n.
Proof.
  unfold be_bytes. apply be_decode_be_bytes_aux.
  rewrite Nnat.N2Nat.id. apply N.size_gt.
Qed.

Lemma length_be_bytes (n : N) :
  (n < 2 ^ 126)%N -> (List.length (be_bytes n) <= 126)%nat.
Proof.
  intros H. unfold be_bytes.
  pose proof (length_be_bytes_aux (N.to_nat (N.size n)) n []) as Hl.
  cbn [List.length] in Hl.
  assert (N.size n <= 126)%N; [| lia].
  destruct (N.eq_dec n 0) as [-> | Hn]; [cbn; lia |].
  rewrite N.size_log2 by assumption.
  apply N.le_succ_l, N.log2_lt_pow2; lia.
Qed.

Lemma be_bytes_nonempty (n : N) : n <> 0%N -> be_bytes n <> [].
Proof.
  intros Hn E. pose proof (be_decode_be_bytes n) as H.
  rewrite E in H. cbn in H. congruence.
Qed.

Lemma der_decode_length_encode (n : N) (rest : bytes) :
  (n < 2 ^ 126)%N ->
  der_decode_length (der_encode_length n ++ rest) = Ok (N.to_nat n, rest).
Proof.
  intros H. unfold der_encode_length.
  destruct (N.ltb_spec n 128) as [Hs | Hl].
  - cbn [app der_decode_length]. rewrite to_N_byte_of_N by lia.
    destruct (N.ltb_spec n 128); [reflexivity | lia].
  - pose proof (length_be_bytes n H) as Hlen.
    assert (Hne : be_bytes n <> []) by (apply be_bytes_nonempty; lia).
    set (octets := be_bytes n) in *.
    assert (Hk : (0 < List.length octets)%nat)
      by (destruct octets; [congruence | cbn; lia]).
    cbn [app der_decode_length]. rewrite to_N_byte_of_N by lia.
    destruct (N.ltb_spec (128 + N.of_nat (List.length octets)) 128); [lia |].
    destruct (N.eqb_spec (128 + N.of_nat (List.length octets)) 128); [lia |].
    replace (N.to_nat (128 + N.of_nat (List.length octets) - 128))
      with (List.length octets) by lia.
    destruct (Nat.ltb_spec (List.length (octets ++ rest)) (List.length octets))
      as [Hlt | _]; [rewrite length_app in Hlt; lia |].
    rewrite firstn_app, Nat.sub_diag, firstn_all, firstn_O, List.app_nil_r.
    rewrite skipn_app, Nat.sub_diag, skipn_all, skipn_O.
    subst octets. now rewrite be_decode_be_bytes.
Qed.

Lemma der_decoder_OctetString_encode (other_forms : bytes -> result (bytes * bytes))
  (payload : bytes) :
  (N.of_nat (List.length payload) < 2 ^ 126)%N ->
  der_decoder_OctetString other_forms (der_encode_OctetString payload) = Ok (payload, []).
Proof.
  intros H. unfold der_encode_OctetString, der_decoder_OctetString.
  rewrite der_decode_length_encode by assumption. cbn [bind].
  rewrite Nnat.Nat2N.id, Nat.ltb_irrefl, firstn_all, skipn_all. reflexivity.
Qed.

(** ** Object identifiers in dotted decimal *)

Lemma lacks_dot_digits (d : Decimal.uint) :
  lacks "." (NilEmpty.string_of_uint d) = true.
Proof. induction d; cbn [NilEmpty.string_of_uint lacks]; try rewrite IHd; reflexivity. Qed.

Lemma lacks_dot_str_of_N (n : N) : lacks "." (str_of_N n) = true.
Proof.
  unfold str_of_N, NilZero.string_of_uint.
  destruct (N.to_uint n); try apply (lacks_dot_digits (_ _)); reflexivity.
Qed.

Lemma str_of_N_nonempty (n : N) : str_of_N n <> EmptyString.
Proof.
  unfold str_of_N, NilZero.string_of_uint.
  destruct (N.to_uint n); discriminate.
Qed.

Lemma str_of_N_inj (n m : N) : str_of_N n = str_of_N m -> n = m.
Proof.
  unfold str_of_N. intros H.
  assert (Hn : N.to_uint n <> Decimal.Nil)
    by (destruct n; [discriminate | apply DecimalPos.Unsigned.to_uint_nonnil]).
  assert (Hm : N.to_uint m <> Decimal.Nil)
    by (destruct m; [discriminate | apply DecimalPos.Unsigned.to_uint_nonnil]).
  apply DecimalN.Unsigned.to_uint_inj.
  pose proof (NilZero.usu _ Hn) as En. pose proof (NilZero.usu _ Hm) as Em.
  rewrite H in En. congruence.
Qed.

Lemma dotted_cut (s1 : string) :
  forall s2 r1 r2 : string,
    lacks "." s1 = true -> lacks "." s2 = true ->
    dotted_rest r1 -> dotted_rest r2 ->
    (s1 ++ r1)%string = (s2 ++ r2)%string ->
    s1 = s2 /\ r1 = r2.
Proof.
  induction s1 as [|c1 s1 IH]; intros s2 r1 r2 H1 H2 D1 D2 E.
  - destruct s2 as [|c2 s2]; [now split |].
    cbn in E. cbn [lacks] in H2. apply andb_prop in H2 as [Hc2 _].
    destruct D1 as [-> | [t ->]]; [discriminate |].
    inversion E; subst. discriminate.
  - cbn [lacks] in H1. apply andb_prop in H1 as [Hc1 H1].
    destruct s2 as [|c2 s2].
    + cbn in E. destruct D2 as [-> | [t ->]]; [discriminate |].
      inversion E; subst. discriminate.
    + cbn [lacks] in H2. apply andb_prop in H2 as [_ H2].
      cbn in E. inversion E; subst.
      destruct (IH s2 r1 r2 H1 H2 D1 D2 H3) as [-> ->]. now split.
Qed.

Lemma str_of_oid_cons (a : N) (o : oid) :
  str_of_oid (a :: o)
  = (str_of_N a ++ match o with
                   | [] => EmptyString
                   | _ :: _ => String "." (str_of_oid o)
                   end)%string.
Proof.
  unfold str_of_oid. destruct o as [|b o]; cbn [map String.concat].
  - now rewrite append_nil_r.
  - reflexivity.
Qed.

(** [str] of an object identifier determines it. *)
Lemma str_of_oid_inj (o1 : oid) :
  forall o2 : oid, str_of_oid o1 = str_of_oid o2 -> o1 = o2.
Proof.
  induction o1 as [|a1 o1 IH]; intros o2 E.
  - destruct o2 as [|a2 o2]; [reflexivity |].
    rewrite str_of_oid_cons in E. cbn in E.
    pose proof (str_of_N_nonempty a2) as Hne.
    destruct (str_of_N a2); [congruence | discriminate].
  - destruct o2 as [|a2 o2].
    + rewrite str_of_oid_cons in E. cbn in E.
      pose proof (str_of_N_nonempty a1) as Hne.
      destruct (str_of_N a1); [congruence | discriminate].
    + rewrite !str_of_oid_cons in E.
      apply dotted_cut in E as [Ea Er];
        try apply lacks_dot_str_of_N;
        try (destruct o1; [now left | right; eauto]);
        try (destruct o2; [now left | right; eauto]).
      apply str_of_N_inj in Ea. subst a2. f_equal.
      destruct o1 as [|b1 o1], o2 as [|b2 o2]; try discriminate; [reflexivity |].
      inversion Er as [Er']. now apply IH.
Qed.

(** ** [scts_from_cert] *)

Lemma is_sct_list_extension_iff (extension : Extension) :
  is_sct_list_extension extension = true <-> extnID extension = ct_sct_list_oid.
Proof.
  unfold is_sct_list_extension. rewrite String.eqb_eq.
  change "1.3.6.1.4.1.11129.2.4.2"%string with (str_of_oid ct_sct_list_oid).
  split; [apply str_of_oid_inj | now intros ->].
Qed.

Lemma filter_no_sct_list_extension (exts : list Extension) :
  (forall extension, In extension exts -> extnID extension <> ct_sct_list_oid) ->
  filter is_sct_list_extension exts = [].
Proof.
  induction exts as [|e exts IH]; intros H; [reflexivity |].
  cbn [filter]. destruct (is_sct_list_extension e) eqn:E.
  - apply is_sct_list_extension_iff in E. exfalso. apply (H e); [now left | exact E].
  - apply IH. intros x Hx. apply H. now right.
Qed.

Lemma filter_first_sct_list_extension (before after : list Extension)
  (extension : Extension) :
  (forall e, In e before -> extnID e <> ct_sct_list_oid) ->
  extnID extension = ct_sct_list_oid ->
  filter is_sct_list_extension (before ++ extension :: after)
  = extension :: filter is_sct_list_extension after.
Proof.
  intros Hb He. rewrite filter_app, (filter_no_sct_list_extension before Hb).
  cbn [app filter].
  now rewrite (proj2 (is_sct_list_extension_iff extension) He).
Qed.

(** The value of an octet string that is empty or holds a byte outside
    32..126 comes back byte for byte. *)
Lemma sctlist_der_of_extnValue_hex (other_forms : bytes -> result (bytes * bytes))
  (payload : bytes) :
  (N.of_nat (List.length payload) < 2 ^ 126)%N ->
  payload = [] \/ existsb needs_hex payload = true ->
  sctlist_der_of_extnValue other_forms (der_encode_OctetString payload) = Ok payload.
Proof.
  intros Hlen H. unfold sctlist_der_of_extnValue.
  rewrite der_decoder_OctetString_encode by assumption. cbn [bind].
  destruct H as [-> | H]; [reflexivity |].
  unfold prettyPrint. rewrite H.
  rewrite split_0x_prefixed by apply lacks_x_hex_of_bytes.
  cbn [getitem_last rev app bind]. apply unhexlify_hex_of_bytes.
Qed.

(** The value of a non-empty octet string made of bytes in 32..126 only does
    not come back: what comes back is shorter, or nothing does. *)
Lemma sctlist_der_of_extnValue_text (other_forms : bytes -> result (bytes * bytes))
  (payload : bytes) :
  (N.of_nat (List.length payload) < 2 ^ 126)%N ->
  payload <> [] -> existsb needs_hex payload = false ->
  forall sctlist_der,
    sctlist_der_of_extnValue other_forms (der_encode_OctetString payload) = Ok sctlist_der ->
    (2 * List.length sctlist_der <= List.length payload)%nat.
Proof.
  intros Hlen Hne Htext sctlist_der. unfold sctlist_der_of_extnValue.
  rewrite der_decoder_OctetString_encode by assumption. cbn [bind].
  unfold prettyPrint. rewrite Htext.
  destruct (getitem_last (split (text_of_bytes payload) "0x")) as [piece|e] eqn:E;
    cbn [bind]; [| discriminate].
  intros Hun. apply unhexlify_length in Hun.
  apply getitem_last_In in E. unfold split in E.
  apply split_from_piece_length in E.
  rewrite length_text_of_bytes in E. cbn [List.length] in E. lia.
Qed.

Section EmbeddedSctsProperties.

Variable der_decoder_Certificate : bytes -> result (Certificate * bytes).
Variable other_forms : bytes -> result (bytes * bytes).
Variable SctRecord : Type.
Variable SignedCertificateTimestampList : bytes -> result (list SctListEntry).
Variable Sct : bytes -> SctRecord.

Lemma scts_from_cert_decoded (cert_der : bytes) (cert : Certificate) (rest : bytes) :
  der_decoder_Certificate cert_der = Ok (cert, rest) ->
  scts_from_cert der_decoder_Certificate other_forms SignedCertificateTimestampList Sct cert_der
  = match filter is_sct_list_extension (extensions (tbsCertificate cert)) with
    | [] => Ok []
    | extension_sctlist :: _ =>
        sctlist_der <- sctlist_der_of_extnValue other_forms (extnValue extension_sctlist) ;;
        sctlist <- SignedCertificateTimestampList sctlist_der ;;
        Ok (map (fun entry => Sct (sct_der entry)) sctlist)
    end.
Proof.
  intros H. unfold scts_from_cert. rewrite H. cbn [bind].
  change (fun extension : Extension =>
            String.eqb (str_of_oid (extnID extension)) "1.3.6.1.4.1.11129.2.4.2")
    with is_sct_list_extension.
  destruct (filter is_sct_list_extension (extensions (tbsCertificate cert)));
    reflexivity.
Qed.

(** C5: for a certificate that decodes and whose extensions hold none with
    the identifier 1.3.6.1.4.1.11129.2.4.2, [scts_from_cert] returns the empty
    list and raises nothing. *)
Theorem scts_from_cert_without_sct_list_extension
  (cert_der : bytes) (cert : Certificate) (rest : bytes) :
  der_decoder_Certificate cert_der = Ok (cert, rest) ->
  (forall extension,
      In extension (extensions (tbsCertificate cert)) ->
      extnID extension <> ct_sct_list_oid) ->
  scts_from_cert der_decoder_Certificate other_forms SignedCertificateTimestampList Sct cert_der
  = Ok [].
Proof.
  intros Hdec Hnone.
  rewrite (scts_from_cert_decoded cert_der cert rest Hdec).
  now rewrite (filter_no_sct_list_extension _ Hnone).
Qed.

(** When the first extension with the SCT list identifier wraps, as a DER
    octet string, a payload that is empty or holds a byte outside 32..126,
    the list codec is given exactly that payload. *)
Theorem scts_from_cert_hands_over_payload
  (cert_der : bytes) (cert : Certificate) (rest : bytes)
  (before after : list Extension) (extension : Extension) (payload : bytes) :
  der_decoder_Certificate cert_der = Ok (cert, rest) ->
  extensions (tbsCertificate cert) = before ++ extension :: after ->
  (forall e, In e before -> extnID e <> ct_sct_list_oid) ->
  extnID extension = ct_sct_list_oid ->
  extnValue extension = der_encode_OctetString payload ->
  (N.of_nat (List.length payload) < 2 ^ 126)%N ->
  payload = [] \/ existsb needs_hex payload = true ->
  scts_from_cert der_decoder_Certificate other_forms SignedCertificateTimestampList Sct cert_der
  = (sctlist <- SignedCertificateTimestampList payload ;;
     Ok (map (fun entry => Sct (sct_der entry)) sctlist)).
Proof.
  intros Hdec Hexts Hbefore Hid Hval Hlen Hhex.
  rewrite (scts_from_cert_decoded cert_der cert rest Hdec), Hexts.
  rewrite (filter_first_sct_list_extension before after extension Hbefore Hid).
  rewrite Hval, (sctlist_der_of_extnValue_hex other_forms payload Hlen Hhex).
  reflexivity.
Qed.

End EmbeddedSctsProperties.

(** ** [scts_from_cert] on concrete certificates *)

Lemma scts_from_cert_without_sct_list_extension_witness :
  let exts := [mkExtension [2; 5; 29; 15]%N true [x03; x02; x05; xa0]] in
  scts_from_cert (example_decoder exts) no_other_forms probe_codec probe_Sct [x30] = Ok [].
Proof.
  intros exts.
  apply (scts_from_cert_without_sct_list_extension
           (example_decoder exts) no_other_forms bytes probe_codec probe_Sct
           [x30] (example_certificate exts) []).
  - reflexivity.
  - intros extension [<- | []]. discriminate.
Defined.

Lemma scts_from_cert_hands_over_payload_witness :
  let payload := [x00; x04; x00; x02; x41; x42] in
  let exts := [mkExtension [2; 5; 29; 15]%N true [x03; x02; x05; xa0];
               mkExtension ct_sct_list_oid false (der_encode_OctetString payload)] in
  scts_from_cert (example_decoder exts) no_other_forms probe_codec probe_Sct [x30]
  = Ok [payload].
Proof.
  intros payload exts.
  apply (scts_from_cert_hands_over_payload
           (example_decoder exts) no_other_forms bytes probe_codec probe_Sct
           [x30] (example_certificate exts) []
           [mkExtension [2; 5; 29; 15]%N true [x03; x02; x05; xa0]] []
           (mkExtension ct_sct_list_oid false (der_encode_OctetString payload))
           payload).
  - reflexivity.
  - reflexivity.
  - intros e [<- | []]. discriminate.
  - reflexivity.
  - reflexivity.
  - vm_compute. reflexivity.
  - right. reflexivity.
Defined.

(** C2 at a payload of printable bytes: the certificate's SCT list extension
    wraps the two bytes ["AB"] (value field [04 02 41 42]).  [prettyPrint]
    gives the text [AB], which holds no ["0x"] and reads as one pair of
    hexadecimal digits, so the codec is given the single byte [ab]; with the
    payload ["hi"] nothing reaches the codec, [unhexlify] raising. *)
Theorem scts_from_cert_mangles_printable_payload :
  forall other_forms : bytes -> result (bytes * bytes),
  let payload := [x41; x42] in
  let exts := [mkExtension ct_sct_list_oid false (der_encode_OctetString payload)] in
  der_encode_OctetString payload = [x04; x02; x41; x42]
  /\ prettyPrint payload = "AB"%string
  /\ sctlist_der_of_extnValue other_forms (der_encode_OctetString payload) = Ok [xab]
  /\ scts_from_cert (example_decoder exts) other_forms probe_codec probe_Sct [x30]
     = Ok [[xab]]
  /\ sctlist_der_of_extnValue other_forms (der_encode_OctetString [x68; x69])
     = Raise BinasciiError.
Proof. intros other_forms. cbv zeta. repeat split; reflexivity. Qed.

(** No non-empty payload made of bytes in 32..126 only reaches the codec
    unchanged. *)
Theorem printable_payload_never_survives
  (other_forms : bytes -> result (bytes * bytes)) (payload : bytes) :
  (N.of_nat (List.length payload) < 2 ^ 126)%N ->
  payload <> [] -> existsb needs_hex payload = false ->
  sctlist_der_of_extnValue other_forms (der_encode_OctetString payload) <> Ok payload.
Proof.
  intros Hlen Hne Htext E.
  apply (sctlist_der_of_extnValue_text other_forms payload Hlen Hne Htext) in E.
  destruct payload; [congruence | cbn [List.length] in E; lia].
Qed.

Lemma printable_payload_never_survives_witness :
  existsb needs_hex [x30; x78; x34; x31] = false
  /\ sctlist_der_of_extnValue no_other_forms
       (der_encode_OctetString [x30; x78; x34; x31])
     = Ok [x41]
  /\ sctlist_der_of_extnValue no_other_forms
       (der_encode_OctetString [x30; x78; x34; x31])
     <> Ok [x30; x78; x34; x31].
Proof.
  split; [reflexivity | split; [reflexivity |]].
  apply (printable_payload_never_survives no_other_forms [x30; x78; x34; x31]).
  - vm_compute. reflexivity.
  - discriminate.
  - reflexivity.
Defined.

(** * Further properties *)

(** ** The callbacks on their own *)

Lemma set_tls_extension_18_tdf_same (ctx : SSLContext) :
  set_tls_extension_18_tdf ctx (tls_extension_18_tdf ctx) = ctx.
Proof. now destruct ctx. Qed.

(** The extension callback returns 1 whenever it returns, leaves the context
    as it was for an extension type other than 18, and for type 18 changes
    no attribute but [tls_extension_18_tdf]. *)
Theorem serverinfo_cli_parse_cb_only_sets_record
  (ctx : SSLContext) (ext_type : N) (_in : bytes) (inlen : N)
  (ctx' : SSLContext) (status : Z) :
  serverinfo_cli_parse_cb ctx ext_type _in inlen = Ok (ctx', status) ->
  status = 1%Z
  /\ ctx' = set_tls_extension_18_tdf ctx (tls_extension_18_tdf ctx')
  /\ (ext_type <> 18%N -> ctx' = ctx).
Proof.
  destruct (N.eq_dec ext_type 18) as [-> | Hne].
  - rewrite serverinfo_cli_parse_cb_18.
    destruct (struct_pack _ _) as [packed|e]; cbn [bind]; [| discriminate].
    intros H. inversion H; subst. repeat split. congruence.
  - rewrite (serverinfo_cli_parse_cb_other ctx ext_type _in inlen Hne).
    intros H. inversion H; subst. repeat split.
    symmetry. apply set_tls_extension_18_tdf_same.
Qed.

Lemma serverinfo_cli_parse_cb_only_sets_record_witness :
  let ctx := after_ocsp_callbacks (new_Context SSLv23_METHOD) [[x01]] in
  let ctx' := set_tls_extension_18_tdf ctx (Some [x00; x12; x00; x01; x55]) in
  serverinfo_cli_parse_cb ctx 18 [x55] 1 = Ok (ctx', 1%Z)
  /\ 1%Z = 1%Z
  /\ ctx' = set_tls_extension_18_tdf ctx (tls_extension_18_tdf ctx')
  /\ (18%N <> 18%N -> ctx' = ctx).
Proof.
  intros ctx ctx'. split; [reflexivity |].
  apply (serverinfo_cli_parse_cb_only_sets_record ctx 18%N [x55] 1%N ctx' 1%Z).
  reflexivity.
Defined.



Lemma after_ocsp_callbacks_snoc (responses : list bytes) (r : bytes)
  (ctx : SSLContext) :
  after_ocsp_callbacks ctx (responses ++ [r])
  = fst (ocsp_client_callback (after_ocsp_callbacks ctx responses) r).
Proof. unfold after_ocsp_callbacks. now rewrite fold_left_app. Qed.

(** The OCSP callback accepts every response, and a run of calls leaves the
    responses appended to the buffer in call order, nothing dropped or
    reordered, and no other attribute changed. *)
Theorem ocsp_client_callback_accumulates (responses : list bytes) :
  forall ctx : SSLContext,
    ocsp_resps (after_ocsp_callbacks ctx responses) = ocsp_resps ctx ++ responses
    /\ after_ocsp_callbacks ctx responses
       = set_ocsp_resps ctx (ocsp_resps ctx ++ responses)
    /\ (forall c r, snd (ocsp_client_callback c r) = true).
Proof.
  induction responses as [|r responses IH] using rev_ind; intros ctx.
  - cbn. rewrite List.app_nil_r. repeat split. now destruct ctx.
  - destruct (IH ctx) as (Hbuf & Hctx & Hacc).
    rewrite after_ocsp_callbacks_snoc. cbn [ocsp_client_callback fst].
    rewrite Hctx. cbn. rewrite <- List.app_assoc. repeat split.
Qed.

(** ** The handshake functions *)

Lemma serverinfo_cli_parse_cb_18_exact (ctx : SSLContext) (data : bytes) :
  (N.of_nat (List.length data) <= 65535)%N ->
  serverinfo_cli_parse_cb ctx 18 data (N.of_nat (List.length data))
  = Ok (set_tls_extension_18_tdf ctx
          (Some (extension_record (N.of_nat (List.length data)) data)),
        1%Z).
Proof.
  intros H. rewrite serverinfo_cli_parse_cb_18_stores by assumption.
  unfold ffi_buffer. rewrite Nnat.Nat2N.id, !firstn_all, Nat.sub_diag.
  cbn [repeat]. now rewrite List.app_nil_r.
Qed.

Lemma last_extension_record_app (tr1 tr2 : list op) :
  forall sofar,
    last_extension_record (tr1 ++ tr2) sofar
    = last_extension_record tr2 (last_extension_record tr1 sofar).
Proof.
  induction tr1 as [|o tr1 IH]; intros sofar; [reflexivity |].
  destruct o; cbn [app last_extension_record]; apply IH.
Qed.

Lemma last_extension_record_truthy (tr : list op) :
  forall sofar,
    sofar = None \/ truthy_bytes sofar = true ->
    last_extension_record tr sofar = None
    \/ truthy_bytes (last_extension_record tr sofar) = true.
Proof.
  induction tr as [|o tr IH]; intros sofar H; [exact H |].
  destruct o; cbn [last_extension_record]; try (apply IH; exact H).
  apply IH. now right.
Qed.

Lemma all_ops_bind (p : op -> bool) {A B : Type} (m : io A) (k : A -> io B) :
  forallb p (fst m) = true ->
  (forall a, forallb p (fst (k a)) = true) ->
  forallb p (fst (io_bind m k)) = true.
Proof.
  intros Hm Hk. destruct m as [tr [a|e]]; cbn [io_bind fst] in *.
  - specialize (Hk a). destruct (k a) as [tr' r]. cbn [fst] in *.
    now rewrite forallb_app, Hm, Hk.
  - assumption.
Qed.

Section HandshakeCoverage.

Variable X509 : Type.
Variable dump_certificate : filetype -> X509 -> bytes.

Implicit Types (env : Env X509) (ctx : SSLContext) (tr : list op).

(** [create_context] ends the process only when the registration of the
    extension callback was asked for and failed: it then writes the line
    [Unable to add custom extension 18] to standard error, has the library
    print its error queue there, and exits with status 1.  Otherwise it
    returns, without output, a context that excludes SSLv2 and SSLv3, has
    each callback installed exactly when its flag is set, and has both
    capture slots empty. *)
Theorem create_context_outcome env scts_tls scts_ocsp :
  (scts_tls = true
   /\ SSL_CTX_add_client_custom_ext env = false
   /\ create_context env scts_tls scts_ocsp
      = ([Stderr ("Unable to add custom extension 18" ++ newline)%string;
          ERR_print_errors_fp],
         Raise (SystemExit 1)))
  \/ ((scts_tls = false \/ SSL_CTX_add_client_custom_ext env = true)
      /\ exists ctx,
           create_context env scts_tls scts_ocsp = ([], Ok ctx)
           /\ ctx_options ctx = [OP_NO_SSLv2; OP_NO_SSLv3]
           /\ ctx_custom_ext_18 ctx = scts_tls
           /\ ctx_ocsp_client_callback ctx = scts_ocsp
           /\ tls_extension_18_tdf ctx = None
           /\ ocsp_resps ctx = []).
Proof.
  unfold create_context.
  destruct scts_tls, (SSL_CTX_add_client_custom_ext env) eqn:Hadd, scts_ocsp;
    cbn;
    first [ left; repeat split; reflexivity
          | right; split; [auto |]; eexists; repeat split; reflexivity ].
Qed.

Lemma deliver_record ctx ev tr ctx' :
  deliver ctx ev = (tr, Ok ctx') ->
  tls_extension_18_tdf ctx'
  = last_extension_record tr (tls_extension_18_tdf ctx)
  /\ ctx_custom_ext_18 ctx' = ctx_custom_ext_18 ctx
  /\ (ctx_custom_ext_18 ctx = false ->
      forall sofar, last_extension_record tr sofar = sofar).
Proof.
  destruct ev as [ext_type data | ocsp_data]; cbn [deliver].
  - destruct (ctx_custom_ext_18 ctx) eqn:Hreg; cbn [andb].
    + destruct (N.eqb_spec ext_type 18) as [-> | Hne].
      * cbn [io_bind emit].
        destruct (N.le_gt_cases (N.of_nat (List.length data)) 65535) as [Hle | Hgt].
        -- rewrite (serverinfo_cli_parse_cb_18_exact ctx data Hle).
           cbn. intros H. inversion H; subst. cbn.
           repeat split; auto; discriminate.
        -- rewrite (serverinfo_cli_parse_cb_18_overflow ctx data _ Hgt).
           cbn. discriminate.
      * intros H. inversion H; subst. cbn. repeat split; auto; discriminate.
    + intros H. inversion H; subst. cbn. repeat split; auto.
  - destruct (ctx_ocsp_client_callback ctx); cbn;
      intros H; inversion H; subst; cbn; repeat split; auto.
Qed.

Lemma deliver_all_record evs :
  forall ctx tr ctx',
    deliver_all ctx evs = (tr, Ok ctx') ->
    tls_extension_18_tdf ctx'
    = last_extension_record tr (tls_extension_18_tdf ctx)
    /\ (ctx_custom_ext_18 ctx = false ->
        forall sofar, last_extension_record tr sofar = sofar).
Proof.
  induction evs as [|ev evs IH]; intros ctx tr ctx'; cbn [deliver_all].
  - intros H. inversion H; subst. cbn. auto.
  - destruct (deliver ctx ev) as [tr1 [ctx1|e]] eqn:E1; cbn [io_bind];
      [| discriminate].
    destruct (deliver_all ctx1 evs) as [tr2 r2] eqn:E2.
    intros H. inversion H; subst.
    destruct (deliver_record _ _ _ _ E1) as (H1 & Hreg & Hn1).
    destruct (IH _ _ _ E2) as (H2 & Hn2).
    split.
    + now rewrite last_extension_record_app, <- H1.
    + intros Hf sofar. rewrite last_extension_record_app, (Hn1 Hf).
      apply Hn2. congruence.
Qed.

(** After a successful handshake the extension record in the result is the
    record of the last extension 18 the callback was called for: it is never
    dropped by the truth test, and it is [None] when the callback was not
    called, as it never is when [scts_tls] is false. *)
Theorem do_handshake_returns_last_extension_record env domain scts_tls scts_ocsp
  tr certificate chain ocsp_response tdf :
  do_handshake env domain scts_tls scts_ocsp
  = (tr, Ok (certificate, chain, ocsp_response, tdf)) ->
  tdf = last_extension_record tr None
  /\ (scts_tls = false -> tdf = None).
Proof.
  intros H.
  destruct (do_handshake_success_inv _ _ _ _ _ _ _ _ _ _ H)
    as (ctx0 & ctx' & dtr & Hsock & _ & Hdel & _ & _ & _ & Htr & Htdf & _).
  destruct (registration_passes env scts_tls) eqn:Hreg.
  2: { rewrite (create_socket_aborted _ env scts_tls scts_ocsp Hreg) in Hsock.
       discriminate. }
  destruct (create_socket_passes _ env scts_tls scts_ocsp Hreg)
    as (ctx1 & E1 & Hext & _ & Hslot & _).
  rewrite E1 in Hsock. inversion Hsock; subst ctx1.
  destruct (deliver_all_record _ _ _ _ Hdel) as (Hrec & Hnone).
  rewrite Hslot in Hrec.
  assert (Hwhole : last_extension_record tr None = last_extension_record dtr None).
  { rewrite Htr, !last_extension_record_app. reflexivity. }
  rewrite Hwhole. split.
  - destruct scts_tls.
    + rewrite Htdf, Hrec.
      destruct (last_extension_record_truthy dtr None (or_introl eq_refl))
        as [-> | ->]; reflexivity.
    + rewrite Hext in Hnone. now rewrite (Hnone eq_refl None).
  - intros ->. exact Htdf.
Qed.

(** After a successful handshake the OCSP response in the result is the
    first response the callback was called with, and [None] when it was not
    called, as it never is when [scts_ocsp] is false: an empty buffer is not
    indexed. *)
Theorem do_handshake_ocsp_response_is_first_call env domain scts_tls scts_ocsp
  tr certificate chain ocsp_response tdf :
  do_handshake env domain scts_tls scts_ocsp
  = (tr, Ok (certificate, chain, ocsp_response, tdf)) ->
  ocsp_response = hd_error (ocsp_callback_calls tr)
  /\ (scts_ocsp = false -> ocsp_response = None).
Proof.
  intros H.
  destruct (do_handshake_success_inv _ _ _ _ _ _ _ _ _ _ H)
    as (ctx0 & ctx' & dtr & Hsock & _ & Hdel & _ & _ & _ & Htr & _ & Hocsp).
  destruct (registration_passes env scts_tls) eqn:Hreg.
  2: { rewrite (create_socket_aborted _ env scts_tls scts_ocsp Hreg) in Hsock.
       discriminate. }
  destruct (create_socket_passes _ env scts_tls scts_ocsp Hreg)
    as (ctx1 & E1 & _ & Hcb & _ & Hresps & _).
  rewrite E1 in Hsock. inversion Hsock; subst ctx1.
  destruct (deliver_all_ocsp _ _ _ _ Hdel) as (Hbuf & Hnone).
  assert (Hwhole : ocsp_callback_calls tr = ocsp_callback_calls dtr).
  { rewrite Htr, !ocsp_callback_calls_app. cbn. now rewrite List.app_nil_r. }
  rewrite Hwhole, Hresps in *. cbn [app] in Hbuf. split.
  - destruct scts_ocsp.
    + rewrite Hocsp, Hbuf. now destruct (ocsp_callback_calls dtr).
    + rewrite Hcb in Hnone. now rewrite (Hnone eq_refl).
  - intros ->. exact Hocsp.
Qed.

Lemma deliver_wire_legal ctx ev :
  wire_legal ev = true -> exists tr ctx', deliver ctx ev = (tr, Ok ctx').
Proof.
  destruct ev as [ext_type data | ocsp_data]; cbn [wire_legal deliver]; intros H.
  - destruct (ctx_custom_ext_18 ctx); cbn [andb]; [| now eexists _, _].
    destruct (N.eqb_spec ext_type 18) as [-> | Hne]; [| now eexists _, _].
    apply N.leb_le in H.
    rewrite (serverinfo_cli_parse_cb_18_exact ctx data H). cbn.
    now eexists _, _.
  - destruct (ctx_ocsp_client_callback ctx); cbn; now eexists _, _.
Qed.

(** The callbacks never fail a handshake: whatever stapled responses and
    extensions of at most 65535 bytes the peer sends, and whichever callbacks
    are installed, a handshake that the library completes is completed. *)
Theorem callbacks_never_fail_the_handshake env :
  handshake_outcome env = Ok tt ->
  forallb wire_legal (handshake_events env) = true ->
  forall ctx, exists tr ctx', sock_do_handshake env ctx = (tr, Ok ctx').
Proof.
  intros Hout Hev ctx. unfold sock_do_handshake. rewrite Hout.
  cbn [io_bind emit lift ret].
  assert (Hall : forall evs c, forallb wire_legal evs = true ->
                   exists tr c', deliver_all c evs = (tr, Ok c')).
  { induction evs as [|ev evs IH]; intros c Hl; cbn [deliver_all].
    - now eexists _, _.
    - cbn [forallb] in Hl. apply andb_prop in Hl as [Hl1 Hl2].
      destruct (deliver_wire_legal c ev Hl1) as (tr1 & c1 & E1).
      destruct (IH c1 Hl2) as (tr2 & c2 & E2).
      rewrite E1. cbn [io_bind]. rewrite E2. now eexists _, _. }
  destruct (Hall (handshake_events env) ctx Hev) as (tr & ctx' & E).
  rewrite E. cbn. now eexists _, _.
Qed.

Lemma no_diagnostics_deliver_all evs :
  forall ctx, no_diagnostics (fst (deliver_all ctx evs)).
Proof.
  unfold no_diagnostics.
  induction evs as [|ev evs IH]; intros ctx; cbn [deliver_all]; [reflexivity |].
  apply all_ops_bind; [| intros ctx'; apply IH].
  destruct ev as [ext_type data | ocsp_data]; cbn [deliver].
  - destruct (ctx_custom_ext_18 ctx && (ext_type =? 18)%N); [| reflexivity].
    apply all_ops_bind; [reflexivity | intros _].
    destruct (serverinfo_cli_parse_cb _ _ _ _) as [[c status]|e]; [| reflexivity].
    now destruct (status =? 0)%Z.
  - destruct (ctx_ocsp_client_callback ctx); [| reflexivity].
    apply all_ops_bind; [reflexivity | intros _]. reflexivity.
Qed.

(** Diagnostics are printed exactly when [do_handshake] fails with an
    exception derived from [Exception]: once, for that exception, just before
    the socket is closed.  A run that succeeds prints none, and an exception
    outside [Exception] passes through unprinted, the socket closed all the
    same. *)
Theorem do_handshake_diagnostics env domain scts_tls scts_ocsp :
  registration_passes env scts_tls = true ->
  let '(tr, outcome) := do_handshake env domain scts_tls scts_ocsp in
  match outcome with
  | Ok _ => no_diagnostics tr
  | Raise exc =>
      exists before,
        no_diagnostics before
        /\ tr = before
                ++ (if is_Exception exc then [Stdout_diagnostics exc] else [])
                ++ [Close]
  end.
Proof.
  intros Hreg.
  destruct (create_socket_passes _ env scts_tls scts_ocsp Hreg) as (ctx & E & _).
  unfold do_handshake. rewrite E. cbn [io_bind emit].
  match goal with
  | |- context [finally (except_Exception_reraise ?b ?h) _] =>
      assert (Hb : no_diagnostics (fst b)); [| destruct b as [btr [res|exc]]]
  end.
  - unfold no_diagnostics.
    apply all_ops_bind; [reflexivity | intros _].
    apply all_ops_bind.
    { unfold sock_do_handshake.
      apply all_ops_bind; [reflexivity | intros _].
      apply all_ops_bind; [apply no_diagnostics_deliver_all | intros c].
      apply all_ops_bind; reflexivity. }
    intros c.
    apply all_ops_bind; [reflexivity | intros chain].
    apply all_ops_bind; [reflexivity | intros certificate].
    apply all_ops_bind; [| reflexivity].
    destruct scts_ocsp; [| reflexivity].
    destruct (ocsp_resps c); [reflexivity |].
    apply all_ops_bind; reflexivity.
  - cbn [fst] in Hb. cbn. unfold no_diagnostics in *.
    cbn [forallb is_diagnostics negb andb]. now rewrite forallb_app, Hb.
  - cbn [fst] in Hb. cbn [except_Exception_reraise].
    destruct (is_Exception exc) eqn:Hexc; cbn [finally fst snd app];
      exists (NewSocket :: RequestOcsp :: btr);
      (split; [unfold no_diagnostics in *; cbn; exact Hb |]);
      rewrite Hexc; cbn [app]; now rewrite <- ?List.app_assoc.
Qed.

(** [cert_of_domain] does no input or output of its own and catches nothing:
    its trace is the trace of [do_handshake], and an exception that leaves
    [do_handshake] leaves [cert_of_domain] unchanged. *)
Theorem cert_of_domain_adds_no_effect env domain scts_tls scts_ocsp :
  fst (cert_of_domain dump_certificate env domain scts_tls scts_ocsp)
  = fst (do_handshake env domain scts_tls scts_ocsp)
  /\ (forall exc,
        snd (do_handshake env domain scts_tls scts_ocsp) = Raise exc ->
        snd (cert_of_domain dump_certificate env domain scts_tls scts_ocsp)
        = Raise exc).
Proof.
  unfold cert_of_domain.
  destruct (do_handshake env domain scts_tls scts_ocsp)
    as [tr [[[[certificate chain] ocsp_response] tdf]|exc]]; cbn [io_bind fst snd].
  - split; [| intros exc H; discriminate].
    destruct (getitem_or_None chain 1); cbn [lift io_bind ret fst];
      now rewrite ?List.app_nil_r.
  - split; [reflexivity |]. intros exc' H. now inversion H.
Qed.

End HandshakeCoverage.

(** ** The further handshake properties on concrete runs *)

Lemma do_handshake_returns_last_extension_record_witness :
  let env := example_env
               [ServerExtension 18 [x01]; StapledOcspResponse [x02];
                ServerExtension 18 [x07; x08]]
               [[x0a]; [x0b]] [x0a] in
  let tr := fst (do_handshake env "example.org" true true) in
  let tdf := Some [x00; x12; x00; x02; x07; x08] in
  do_handshake env "example.org" true true
    = (tr, Ok ([x0a], Some [[x0a]; [x0b]], Some [x02], tdf))
  /\ tdf = last_extension_record tr None
  /\ (true = false -> tdf = None).
Proof.
  intros env tr tdf. split; [reflexivity |].
  apply (do_handshake_returns_last_extension_record bytes env "example.org"
           true true tr [x0a] (Some [[x0a]; [x0b]]) (Some [x02]) tdf).
  reflexivity.
Defined.

Lemma do_handshake_ocsp_response_is_first_call_witness :
  let env := example_env [StapledOcspResponse [x01]; StapledOcspResponse [x02]]
               [[x0a]; [x0b]] [x0a] in
  let tr := fst (do_handshake env "example.org" false false) in
  do_handshake env "example.org" false false
    = (tr, Ok ([x0a], Some [[x0a]; [x0b]], None, None))
  /\ None = hd_error (ocsp_callback_calls tr)
  /\ (false = false -> @None bytes = None).
Proof.
  intros env tr. split; [reflexivity |].
  apply (do_handshake_ocsp_response_is_first_call bytes env "example.org"
           false false tr [x0a] (Some [[x0a]; [x0b]]) None None).
  reflexivity.
Defined.

Lemma callbacks_never_fail_the_handshake_witness :
  let env := example_env
               [ServerExtension 18 []; StapledOcspResponse [];
                ServerExtension 5 [x01]; ServerExtension 18 [x07; x08]]
               [[x0a]; [x0b]] [x0a] in
  forallb wire_legal (handshake_events env) = true
  /\ forall ctx, exists tr ctx', sock_do_handshake env ctx = (tr, Ok ctx').
Proof.
  intros env. split; [reflexivity |].
  apply (callbacks_never_fail_the_handshake bytes env); reflexivity.
Defined.

Lemma do_handshake_diagnostics_witness :
  let failing := mkEnv "cacert.pem" true (Ok tt) [StapledOcspResponse [x01]]
                   (Raise SSLError) (Ok (Some [[x0a]; [x0b]])) (Ok [x0a]) in
  do_handshake failing "example.org" true true
    = ([NewSocket; RequestOcsp; Connect "example.org" 443; DoHandshake;
        CallOcspCb [x01]; Stdout_diagnostics SSLError; Close],
       Raise SSLError)
  /\ let '(tr, outcome) := do_handshake failing "example.org" true true in
     match outcome with
     | Ok _ => no_diagnostics tr
     | Raise exc =>
         exists before,
           no_diagnostics before
           /\ tr = before
                   ++ (if is_Exception exc then [Stdout_diagnostics exc] else [])
                   ++ [Close]
     end.
Proof.
  intros failing. split; [reflexivity |].
  apply (do_handshake_diagnostics bytes failing "example.org" true true).
  reflexivity.
Defined.

(** ** [scts_from_cert]: which extension, which bytes *)

Lemma der_decoder_OctetString_encode_rest
  (other_forms : bytes -> result (bytes * bytes)) (payload trailing : bytes) :
  (N.of_nat (List.length payload) < 2 ^ 126)%N ->
  der_decoder_OctetString other_forms (der_encode_OctetString payload ++ trailing)
  = Ok (payload, trailing).
Proof.
  intros H. unfold der_encode_OctetString, der_decoder_OctetString.
  cbn [app]. rewrite <- List.app_assoc.
  rewrite der_decode_length_encode by assumption. cbn [bind].
  rewrite Nnat.Nat2N.id.
  destruct (Nat.ltb_spec (List.length (payload ++ trailing)) (List.length payload))
    as [Hlt | _]; [rewrite length_app in Hlt; lia |].
  rewrite firstn_app, Nat.sub_diag, firstn_all, firstn_O, List.app_nil_r.
  rewrite skipn_app, Nat.sub_diag, skipn_all, skipn_O. reflexivity.
Qed.

(** Bytes that follow the octet string inside the extension value are not
    looked at: the value field with anything appended unwraps as the value
    field alone does. *)
Theorem sctlist_der_ignores_trailing_bytes
  (other_forms : bytes -> result (bytes * bytes)) (payload trailing : bytes) :
  (N.of_nat (List.length payload) < 2 ^ 126)%N ->
  sctlist_der_of_extnValue other_forms (der_encode_OctetString payload ++ trailing)
  = sctlist_der_of_extnValue other_forms (der_encode_OctetString payload).
Proof.
  intros H. unfold sctlist_der_of_extnValue.
  rewrite der_decoder_OctetString_encode_rest by assumption.
  rewrite der_decoder_OctetString_encode by assumption. reflexivity.
Qed.

Lemma sctlist_der_ignores_trailing_bytes_witness :
  sctlist_der_of_extnValue no_other_forms
    (der_encode_OctetString [x00; x01; x02] ++ [xff; xfe])
  = Ok [x00; x01; x02]
  /\ sctlist_der_of_extnValue no_other_forms
       (der_encode_OctetString [x00; x01; x02] ++ [xff; xfe])
     = sctlist_der_of_extnValue no_other_forms
         (der_encode_OctetString [x00; x01; x02]).
Proof.
  split; [reflexivity |].
  apply (sctlist_der_ignores_trailing_bytes no_other_forms
           [x00; x01; x02] [xff; xfe]).
  vm_compute. reflexivity.
Defined.

(** A primitive octet string cut short, anywhere before its last octet,
    is refused. *)
Lemma der_decoder_OctetString_truncated
  (other_forms : bytes -> result (bytes * bytes)) (payload : bytes) (k : nat) :
  (N.of_nat (List.length payload) < 2 ^ 126)%N ->
  (k < List.length (der_encode_OctetString payload))%nat ->
  der_decoder_OctetString other_forms (firstn k (der_encode_OctetString payload))
  = Raise PyAsn1Error.
Proof.
  intros H Hk. unfold der_encode_OctetString in *.
  destruct k as [|k]; [reflexivity |].
  cbn [firstn der_decoder_OctetString]. cbn [List.length] in Hk.
  apply PeanoNat.lt_S_n in Hk. rewrite length_app in Hk.
  unfold der_encode_length in *.
  destruct (N.ltb_spec (N.of_nat (List.length payload)) 128) as [Hs | Hl].
  - cbn [app List.length] in *.
    destruct k as [|k]; [reflexivity |].
    cbn [firstn der_decode_length]. rewrite to_N_byte_of_N by lia.
    destruct (N.ltb_spec (N.of_nat (List.length payload)) 128); [| lia].
    cbn [bind]. rewrite Nnat.Nat2N.id, length_firstn.
    destruct (Nat.ltb_spec (Nat.min k (List.length payload)) (List.length payload));
      [reflexivity | lia].
  - pose proof (length_be_bytes _ H) as Hlen.
    assert (Hne : be_bytes (N.of_nat (List.length payload)) <> [])
      by (apply be_bytes_nonempty; lia).
    set (octets := be_bytes (N.of_nat (List.length payload))) in *.
    assert (Hpos : (0 < List.length octets)%nat)
      by (destruct octets; [congruence | cbn; lia]).
    cbn [app List.length] in *.
    destruct k as [|k]; [reflexivity |].
    cbn [firstn der_decode_length]. rewrite to_N_byte_of_N by lia.
    destruct (N.ltb_spec (128 + N.of_nat (List.length octets)) 128); [lia |].
    destruct (N.eqb_spec (128 + N.of_nat (List.length octets)) 128); [lia |].
    replace (N.to_nat (128 + N.of_nat (List.length octets) - 128))
      with (List.length octets) by lia.
    rewrite length_firstn, length_app.
    destruct (Nat.ltb_spec (Nat.min k (List.length octets + List.length payload))
                (List.length octets)) as [Hshort | Hall]; [reflexivity |].
    cbn [bind].
    rewrite firstn_app.
    rewrite (firstn_all2 (n := k) octets) by lia.
    rewrite firstn_app, Nat.sub_diag, firstn_all, firstn_O, List.app_nil_r.
    rewrite skipn_app, Nat.sub_diag, skipn_all, skipn_O. cbn [app].
    subst octets. rewrite be_decode_be_bytes, Nnat.Nat2N.id, length_firstn.
    destruct (Nat.ltb_spec
                (Nat.min (k - List.length (be_bytes (N.of_nat (List.length payload))))
                   (List.length payload))
                (List.length payload)); [reflexivity | lia].
Qed.

Lemma getitem_last_cons {A : Type} (x y : A) (seq : list A) :
  getitem_last seq = Ok y -> getitem_last (x :: seq) = Ok y.
Proof.
  unfold getitem_last. cbn [rev].
  destruct (rev seq) as [|z l]; [discriminate |]. intros H. exact H.
Qed.

(** In a text that ends with ["0x"] and then letters other than x, the last
    piece of the split is what follows that ["0x"], whatever comes before. *)
Lemma getitem_last_split_0x (h : string) (n : nat) :
  lacks "x" h = true ->
  forall (s : string) (cur : list ascii),
    (String.length s <= n)%nat ->
    getitem_last (split_from "0x" 0 cur (s ++ String "0" (String "x" h))) = Ok h.
Proof.
  intros Hh. induction n as [n IH] using lt_wf_ind. intros s cur Hn.
  assert (Hend : forall cur',
             getitem_last (split_from "0x" 0 cur' (String "0" (String "x" h)))
             = Ok h).
  { intros cur'. cbn [split_from].
    replace (String.prefix "0x" (String "0" (String "x" h))) with true
      by (destruct h; reflexivity).
    cbn [String.length Nat.sub split_from].
    rewrite (split_from_0x_lacks_x h [] Hh). reflexivity. }
  destruct s as [|c s]; [apply Hend |].
  cbn [append split_from].
  destruct (String.prefix "0x" (String c (s ++ String "0" (String "x" h))))
    eqn:Hp.
  - apply getitem_last_cons. cbn [String.length Nat.sub].
    cbn [String.prefix] in Hp.
    destruct (ascii_dec "0" c) as [<- |]; [| discriminate].
    destruct s as [|c' s'].
    + cbn [append String.prefix] in Hp.
      destruct (ascii_dec "x" "0"); discriminate.
    + cbn [append String.prefix] in Hp.
      destruct (ascii_dec "x" c') as [<- |]; [| discriminate].
      cbn [append split_from].
      apply (IH (String.length s')); cbn [String.length] in *; lia.
  - apply (IH (String.length s)); cbn [String.length] in *; lia.
Qed.

Lemma text_of_bytes_app (a b : bytes) :
  text_of_bytes (a ++ b) = (text_of_bytes a ++ text_of_bytes b)%string.
Proof. induction a as [|x a IH]; cbn; [reflexivity | now rewrite IH]. Qed.

Lemma text_of_bytes_of_text (s : string) : text_of_bytes (bytes_of_text s) = s.
Proof.
  induction s as [|c s IH]; cbn; [reflexivity |].
  now rewrite ascii_of_byte_of_ascii, IH.
Qed.

Lemma hex_text_is_printable_byte (b : byte) (rest : string) :
  existsb needs_hex
    (bytes_of_text (String (hexdigit (Byte.to_N b / 16))
                      (String (hexdigit (Byte.to_N b mod 16)) rest)))
  = existsb needs_hex (bytes_of_text rest).
Proof. destruct b; reflexivity. Qed.

Lemma hex_text_is_printable (value : bytes) :
  existsb needs_hex (bytes_of_text (hex_of_bytes value)) = false.
Proof.
  induction value as [|b value IH]; [reflexivity |].
  cbn [hex_of_bytes]. now rewrite hex_text_is_printable_byte.
Qed.

(** What a payload of printable bytes turns into: when it ends with the text
    [0x] followed by hexadecimal digits, the codec is given the bytes those
    digits spell, and everything before that [0x] is lost. *)
Theorem printable_payload_is_read_after_last_0x
  (other_forms : bytes -> result (bytes * bytes)) (lead value : bytes) :
  existsb needs_hex lead = false ->
  (N.of_nat (List.length (lead ++ bytes_of_text ("0x" ++ hex_of_bytes value)))
   < 2 ^ 126)%N ->
  sctlist_der_of_extnValue other_forms
    (der_encode_OctetString (lead ++ bytes_of_text ("0x" ++ hex_of_bytes value)))
  = Ok value.
Proof.
  intros Hlead Hlen. unfold sctlist_der_of_extnValue.
  rewrite der_decoder_OctetString_encode by assumption. cbn [bind].
  unfold prettyPrint.
  rewrite existsb_app, Hlead. cbn [append bytes_of_text existsb orb].
  change (needs_hex (byte_of_ascii "0")) with false.
  change (needs_hex (byte_of_ascii "x")) with false.
  cbn [orb]. rewrite hex_text_is_printable.
  rewrite text_of_bytes_app.
  change (byte_of_ascii "0" :: byte_of_ascii "x" :: bytes_of_text (hex_of_bytes value))
    with (bytes_of_text (String "0" (String "x" (hex_of_bytes value)))).
  rewrite text_of_bytes_of_text. unfold split.
  rewrite (getitem_last_split_0x (hex_of_bytes value)
             (String.length (text_of_bytes lead))
             (lacks_x_hex_of_bytes value) (text_of_bytes lead) [] (le_n _)).
  cbn [bind]. apply unhexlify_hex_of_bytes.
Qed.

Lemma printable_payload_is_read_after_last_0x_witness :
  existsb needs_hex [x53; x43; x54] = false
  /\ [x53; x43; x54] ++ bytes_of_text ("0x" ++ hex_of_bytes [x00; xff])
     = [x53; x43; x54; x30; x78; x30; x30; x66; x66]
  /\ sctlist_der_of_extnValue no_other_forms
       (der_encode_OctetString
          ([x53; x43; x54] ++ bytes_of_text ("0x" ++ hex_of_bytes [x00; xff])))
     = Ok [x00; xff].
Proof.
  split; [reflexivity | split; [reflexivity |]].
  apply (printable_payload_is_read_after_last_0x no_other_forms
           [x53; x43; x54] [x00; xff]).
  - reflexivity.
  - vm_compute. reflexivity.
Defined.

Section EmbeddedSctsCoverage.

Variable der_decoder_Certificate : bytes -> result (Certificate * bytes).
Variable other_forms : bytes -> result (bytes * bytes).
Variable SctRecord : Type.
Variable SignedCertificateTimestampList : bytes -> result (list SctListEntry).
Variable Sct : bytes -> SctRecord.

(** Only the first extension with the SCT list identifier counts: the result
    is made from its value field alone, whatever its [critical] flag, and
    whatever extensions follow it, further SCT list extensions included. *)
Theorem scts_from_cert_uses_first_match
  (cert_der : bytes) (cert : Certificate) (rest : bytes)
  (before after : list Extension) (extension : Extension) :
  der_decoder_Certificate cert_der = Ok (cert, rest) ->
  extensions (tbsCertificate cert) = before ++ extension :: after ->
  (forall e, In e before -> extnID e <> ct_sct_list_oid) ->
  extnID extension = ct_sct_list_oid ->
  scts_from_cert der_decoder_Certificate other_forms SignedCertificateTimestampList Sct cert_der
  = (sctlist_der <- sctlist_der_of_extnValue other_forms (extnValue extension) ;;
     sctlist <- SignedCertificateTimestampList sctlist_der ;;
     Ok (map (fun entry => Sct (sct_der entry)) sctlist)).
Proof.
  intros Hdec Hexts Hbefore Hid.
  rewrite (scts_from_cert_decoded _ _ _ _ _ cert_der cert rest Hdec), Hexts.
  now rewrite (filter_first_sct_list_extension before after extension Hbefore Hid).
Qed.

(** A certificate that does not decode, and an SCT list extension whose
    value is a primitive octet string cut short (the empty value included),
    make [scts_from_cert] raise: the decoder's exception in the first case,
    pyasn1's in the second; the list codec is not called. *)
Theorem scts_from_cert_surfaces_decode_faults
  (cert_der : bytes) :
  (forall exc,
      der_decoder_Certificate cert_der = Raise exc ->
      scts_from_cert der_decoder_Certificate other_forms
        SignedCertificateTimestampList Sct cert_der
      = Raise exc)
  /\ (forall cert rest before extension after payload k,
        der_decoder_Certificate cert_der = Ok (cert, rest) ->
        extensions (tbsCertificate cert) = before ++ extension :: after ->
        (forall e, In e before -> extnID e <> ct_sct_list_oid) ->
        extnID extension = ct_sct_list_oid ->
        (N.of_nat (List.length payload) < 2 ^ 126)%N ->
        (k < List.length (der_encode_OctetString payload))%nat ->
        extnValue extension = firstn k (der_encode_OctetString payload) ->
        scts_from_cert der_decoder_Certificate other_forms
          SignedCertificateTimestampList Sct cert_der
        = Raise PyAsn1Error).
Proof.
  split.
  - intros exc H. unfold scts_from_cert. now rewrite H.
  - intros cert rest before extension after payload k
      Hdec Hexts Hbefore Hid Hlen Hk Hval.
    rewrite (scts_from_cert_decoded _ _ _ _ _ cert_der cert rest Hdec), Hexts.
    rewrite (filter_first_sct_list_extension before after extension Hbefore Hid).
    unfold sctlist_der_of_extnValue.
    now rewrite Hval, (der_decoder_OctetString_truncated _ _ _ Hlen Hk).
Qed.

End EmbeddedSctsCoverage.

Lemma scts_from_cert_uses_first_match_witness :
  let first := mkExtension ct_sct_list_oid false
                 (der_encode_OctetString [x00; x01]) in
  let second := mkExtension ct_sct_list_oid true
                  (der_encode_OctetString [x00; x02]) in
  let exts := [mkExtension [2; 5; 29; 15]%N true [x03; x02; x05; xa0];
               first; second] in
  scts_from_cert (example_decoder exts) no_other_forms probe_codec probe_Sct [x30]
  = Ok [[x00; x01]].
Proof.
  intros first second exts.
  apply (scts_from_cert_uses_first_match
           (example_decoder exts) no_other_forms bytes probe_codec probe_Sct
           [x30] (example_certificate exts) []
           [mkExtension [2; 5; 29; 15]%N true [x03; x02; x05; xa0]] [second]
           first).
  - reflexivity.
  - reflexivity.
  - intros e [<- | []]. discriminate.
  - reflexivity.
Defined.

Lemma scts_from_cert_surfaces_decode_faults_witness :
  let value := firstn 5 (der_encode_OctetString [x00; x01; x02; x03]) in
  let exts := [mkExtension ct_sct_list_oid false value] in
  value = [x04; x04; x00; x01; x02]
  /\ scts_from_cert (example_decoder exts) no_other_forms probe_codec probe_Sct
       [x30]
     = Raise PyAsn1Error.
Proof.
  intros value exts. split; [reflexivity |].
  apply (proj2 (scts_from_cert_surfaces_decode_faults
                  (example_decoder exts) no_other_forms bytes probe_codec
                  probe_Sct [x30])
           (example_certificate exts) [] []
           (mkExtension ct_sct_list_oid false value) []
           [x00; x01; x02; x03] 5%nat).
  - reflexivity.
  - reflexivity.
  - intros e [].
  - reflexivity.
  - vm_compute. reflexivity.
  - cbn. lia.
  - reflexivity.
Defined.
